(* ===================================================================== *)
(*  Browser tool handlers of src/tools/common.ts                          *)
(*                                                                         *)
(*  The handlers are embedded as programs of a small reader/state/error    *)
(*  monad.  The state records the current tab, the pending file chooser,   *)
(*  the viewport and the chronological list of calls made on the context,  *)
(*  the tab, the page and the timer; a thrown exception is an error        *)
(*  result that keeps the state reached so far.                            *)
(*                                                                         *)
(*  Raw tool parameters are JSON values whose objects are finite maps.     *)
(*  A JavaScript number is a binary64 float: numbers are Rocq's primitive  *)
(*  floats, [*] is their product, and [Math.min] and [Math.max] are        *)
(*  defined on them.  How a number is rendered inside a template literal   *)
(*  is the engine's business and is taken from the environment.            *)
(* ===================================================================== *)

From Stdlib Require Import ZArith Lia Floats.
From stdpp Require Import base option list strings gmap pretty.

Open Scope Z_scope.

(* --------------------------------------------------------------------- *)
(* JSON values                                                             *)
(* --------------------------------------------------------------------- *)

#[local] Set Warnings "-register-all".

Inductive json : Type :=
| JNull
| JBool (b : bool)
| JNum (x : float)
| JStr (s : string)
| JArr (l : list json)
| JObj (o : gmap string json).

(* --------------------------------------------------------------------- *)
(* Math.min and Math.max                                                   *)
(* --------------------------------------------------------------------- *)

Module Math.

(* [Math.min(a, b)]: NaN if either argument is NaN, otherwise the smaller
   one, where -0 counts as smaller than +0. *)
Definition min (a b : float) : float :=
  if is_nan a || is_nan b then nan
  else if (a <? b)%float then a
  else if (b <? a)%float then b
  else if get_sign a then a else b.

(* [Math.max(a, b)]: NaN if either argument is NaN, otherwise the larger
   one, where +0 counts as larger than -0. *)
Definition max (a b : float) : float :=
  if is_nan a || is_nan b then nan
  else if (a <? b)%float then b
  else if (b <? a)%float then a
  else if get_sign a then b else a.

End Math.

#[global] Arguments Math.min : simpl never.
#[global] Arguments Math.max : simpl never.
#[global] Arguments is_nan : simpl never.

(* --------------------------------------------------------------------- *)
(* The fragment of zod used by the schemas of common.ts                    *)
(* --------------------------------------------------------------------- *)

Module Zod.

(* A zod type, indexed by the type of the values it produces. *)
Inductive ZodType : Type -> Type :=
| ZString : ZodType string
| ZNumber : ZodType float
| ZOptional {A} (t : ZodType A) : ZodType (option A)
| ZArray {A} (t : ZodType A) : ZodType (list A).

(* [all_some] collects the results of the element parsers of an array;
   one rejected element rejects the whole array. *)
Fixpoint all_some {A} (l : list (option A)) : option (list A) :=
  match l with
  | [] => Some []
  | None :: _ => None
  | Some x :: r =>
      match all_some r with
      | Some xs => Some (x :: xs)
      | None => None
      end
  end.

(* Parsing a value; [None] as input is JavaScript's [undefined] (the
   value of a key that the object does not have), [None] as output is a
   thrown ZodError.  [z.number()] accepts every number but NaN. *)
Fixpoint parse_type {A} (t : ZodType A) (v : option json) : option A :=
  match t with
  | ZString => match v with Some (JStr s) => Some s | _ => None end
  | ZNumber =>
      match v with
      | Some (JNum x) => if is_nan x then None else Some x
      | _ => None
      end
  | ZOptional t' =>
      match v with
      | None => Some None
      | Some _ => match parse_type t' v with
                  | Some a => Some (Some a)
                  | None => None
                  end
      end
  | ZArray t' =>
      match v with
      | Some (JArr l) => all_some (map (fun x => parse_type t' (Some x)) l)
      | _ => None
      end
  end.

(* The shape given to [z.object]: the declared keys with their types, in
   order.  The validated record is the tuple of the parsed fields. *)
Inductive Shape : Type -> Type :=
| SNil : Shape unit
| SField {A B} (key : string) (t : ZodType A) (rest : Shape B) : Shape (A * B).

Fixpoint shape_keys {A} (s : Shape A) : list string :=
  match s with
  | SNil => []
  | SField key _ rest => key :: shape_keys rest
  end.

(* Only the declared keys are read: [z.object] without [.strict()] and
   without [.passthrough()] builds its output from the shape and leaves
   every other key of the input out of it. *)
Fixpoint parse_shape {A} (s : Shape A) (o : gmap string json) : option A :=
  match s with
  | SNil => Some tt
  | SField key t rest =>
      match parse_type t (o !! key), parse_shape rest o with
      | Some a, Some b => Some (a, b)
      | _, _ => None
      end
  end.

(* [schema.safeParse(params)] for [schema = z.object(shape)]: the
   validated record, or [None] where [schema.parse(params)] throws. *)
Definition safeParse {A} (s : Shape A) (params : json) : option A :=
  match params with
  | JObj o => parse_shape s o
  | _ => None
  end.

(* [zodToJsonSchema(z.object(shape))], as far as the tool descriptors
   need it: the declared properties with their JSON types, and the keys
   that are required (those whose type is not optional). *)
Inductive JsonType : Type :=
| TString
| TNumber
| TArray (items : JsonType).

Record JsonSchema : Type := {
  properties : list (string * JsonType);
  required : list string;
}.

Fixpoint json_type {A} (t : ZodType A) : JsonType :=
  match t with
  | ZString => TString
  | ZNumber => TNumber
  | ZOptional t' => json_type t'
  | ZArray t' => TArray (json_type t')
  end.

Definition is_optional {A} (t : ZodType A) : bool :=
  match t with
  | ZOptional _ => true
  | _ => false
  end.

Fixpoint zodToJsonSchema {A} (s : Shape A) : JsonSchema :=
  match s with
  | SNil => {| properties := []; required := [] |}
  | SField key t rest =>
      let r := zodToJsonSchema rest in
      {| properties := (key, json_type t) :: properties r;
         required := if is_optional t then required r else key :: required r |}
  end.

End Zod.

(* --------------------------------------------------------------------- *)
(* Errors, results and the world the handlers act on                       *)
(* --------------------------------------------------------------------- *)

(* What a handler can throw: the ZodError of [parse], the error of
   [context.currentTab()] when no tab is open, a rejection by the browser,
   a failed installation. *)
Inductive Error : Type :=
| InvalidParams
| NoActiveTab
| ActionFailed
| InstallFailed.

(* The options object given to [Tab.run] and [Tab.runAndWait];
   [noClearFileChooser] is an optional member. *)
Record RunOptions : Type := {
  status : string;
  captureSnapshot : bool;
  noClearFileChooser : option bool;
}.

(* The argument of [page.pdf]. *)
Record PdfOptions : Type := {
  pdf_path : string;
  pdf_printBackground : bool;
  pdf_width : string;
  pdf_height : string;
}.

(* Calls that leave the handler, in the order they are made.  A call on a
   tab or on its page names the tab; the three steps of the runner
   (clearing the chooser, waiting, taking the snapshot) follow the [Run] or
   [RunAndWait] they belong to. *)
Inductive Event : Type :=
| EnsureTab
| CurrentTab
| ContextClose
| ContextInstall
| Run (tab : nat) (opts : RunOptions)
| RunAndWait (tab : nat) (opts : RunOptions)
| ClearFileChooser
| WaitForSettle
| CaptureSnapshot
| TabNavigate (tab : nat) (url : string)
| PageGoBack (tab : nat)
| PageGoForward (tab : nat)
| KeyboardPress (tab : nat) (key : string)
| SubmitFileChooser (tab : nat) (paths : list string)
| SetViewportSize (tab : nat) (width height : float)
| PageEvaluate (tab : nat)
| PagePdf (tab : nat) (opts : PdfOptions)
| SetTimeout (ms : float).

(* What [Tab.run] hands back. *)
Record ActionOutcome : Type := {
  outcome_status : string;
  outcome_snapshot : option string;
}.

(* A tool result is either the text content a handler builds itself,
   [{content: [{type: 'text', text}]}], or the outcome of the runner,
   returned unchanged by the handler. *)
Inductive ToolResult : Type :=
| TextContent (text : string)
| Outcome (o : ActionOutcome).

(* Everything the handlers read from outside common.ts and cannot change:
   the rendering of a number inside a template literal, the two path
   helpers, the clock, the page metrics (which depend on the viewport),
   the operations the browser rejects, the snapshot of the page and the
   channel reported by the installer. *)
Record Env : Type := {
  number_toString : float -> string;
  sanitizeForFilePath : string -> string;
  path_join : string -> string -> string;
  toISOString_now : string;
  body_scrollHeight : float * float -> float;
  documentElement_scrollHeight : float * float -> float;
  rejects : Event -> bool;
  page_snapshot : option string;
  install_channel : option string;
}.

(* The mutable part of the world. *)
Record State : Type := {
  current : option nat;
  tabs_created : nat;
  fileChooser : bool;
  viewport : float * float;
  trace : list Event;
}.

Definition log (e : Event) (s : State) : State :=
  {| current := current s; tabs_created := tabs_created s;
     fileChooser := fileChooser s; viewport := viewport s;
     trace := trace s ++ [e] |}.

Definition set_current (t : option nat) (n : nat) (s : State) : State :=
  {| current := t; tabs_created := n;
     fileChooser := fileChooser s; viewport := viewport s;
     trace := trace s |}.

Definition set_fileChooser (b : bool) (s : State) : State :=
  {| current := current s; tabs_created := tabs_created s;
     fileChooser := b; viewport := viewport s;
     trace := trace s |}.

Definition set_viewport (v : float * float) (s : State) : State :=
  {| current := current s; tabs_created := tabs_created s;
     fileChooser := fileChooser s; viewport := v;
     trace := trace s |}.

(* --------------------------------------------------------------------- *)
(* The monad of handlers                                                   *)
(* --------------------------------------------------------------------- *)

Definition M (A : Type) : Type := Env -> State -> (Error + A) * State.

Definition ret {A} (a : A) : M A := fun _ s => (inr a, s).

Definition throw {A} (e : Error) : M A := fun _ s => (inl e, s).

Definition bind {A B} (m : M A) (k : A -> M B) : M B :=
  fun env s =>
    match m env s with
    | (inr a, s') => k a env s'
    | (inl e, s') => (inl e, s')
    end.

Declare Scope handler_scope.
Delimit Scope handler_scope with handler.
Notation "x <- m ;; k" := (bind m (fun x => k))
  (at level 100, m at next level, right associativity) : handler_scope.
Notation "m ;; k" := (bind m (fun _ => k))
  (at level 100, right associativity) : handler_scope.
Open Scope handler_scope.

Definition ask : M Env := fun env s => (inr env, s).
Definition get : M State := fun _ s => (inr s, s).
Definition modify (f : State -> State) : M unit := fun _ s => (inr tt, f s).

(* A call on the browser: it is recorded, and it throws when the browser
   rejects it. *)
Definition call (e : Event) : M unit :=
  modify (log e);;
  env <- ask;;
  if rejects env e then throw ActionFailed else ret tt.

(* A call that is recorded and cannot fail. *)
Definition note (e : Event) : M unit := modify (log e).

(* [schema.parse(params)]: a ZodError is the failure InvalidParams. *)
Definition parse {A} (s : Zod.Shape A) (params : json) : M A :=
  match Zod.safeParse s params with
  | Some a => ret a
  | None => throw InvalidParams
  end.

(* --------------------------------------------------------------------- *)
(* The context, the tab, the page and the timer                            *)
(* --------------------------------------------------------------------- *)

(** Modelled from the spec: [context.ensureTab()] of the BrowserContext,
    which common.ts calls and does not define.  It returns the current tab
    if one exists; otherwise it creates a tab, makes it current and returns
    it. *)
Definition ensureTab : M nat :=
  call EnsureTab;;
  s <- get;;
  match current s with
  | Some t => ret t
  | None =>
      let t := tabs_created s in
      modify (set_current (Some t) (S t));;
      ret t
  end.

(** Modelled from the spec: [context.currentTab()] of the BrowserContext.
    It returns the current tab and fails with NoActiveTab if none exists. *)
Definition currentTab : M nat :=
  note CurrentTab;;
  s <- get;;
  match current s with
  | Some t => ret t
  | None => throw NoActiveTab
  end.

(** Modelled from the spec: [context.close()] of the BrowserContext.  It
    closes the current tab; closing a closed context is not an error. *)
Definition context_close : M unit :=
  note ContextClose;;
  s <- get;;
  modify (set_current None (tabs_created s)).

(** Modelled from the spec: [context.install()] of the BrowserContext.  It
    returns the installed channel name, or fails with InstallFailed. *)
Definition context_install : M string :=
  note ContextInstall;;
  env <- ask;;
  match install_channel env with
  | Some channel => ret channel
  | None => throw InstallFailed
  end.

(** Modelled from the spec: the two entry points of the ActionRunner,
    [Tab.run] ([wait = false]) and [Tab.runAndWait] ([wait = true]).
    Unless [noClearFileChooser] is set, the pending file chooser is
    cleared; the action runs and its failure propagates; [runAndWait] then
    waits for the page to settle; a snapshot is captured when
    [captureSnapshot] is set and is left out when the capture fails; the
    outcome carries the status of the options. *)
Definition run_action (wait : bool) (tab : nat) (action : nat -> M unit)
    (options : RunOptions) : M ToolResult :=
  note (if wait then RunAndWait tab options else Run tab options);;
  match noClearFileChooser options with
  | Some true => ret tt
  | _ => note ClearFileChooser;; modify (set_fileChooser false)
  end;;
  action tab;;
  (if wait then note WaitForSettle else ret tt);;
  snapshot <- (if captureSnapshot options
               then note CaptureSnapshot;; env <- ask;; ret (page_snapshot env)
               else ret None);;
  ret (Outcome {| outcome_status := status options;
                  outcome_snapshot := snapshot |}).

Definition run := run_action false.
Definition runAndWait := run_action true.

(** Modelled from the spec: [tab.submitFileChooser(paths)].  It submits the
    paths to the pending file chooser and fails if none is pending. *)
Definition submitFileChooser (tab : nat) (paths : list string) : M unit :=
  s <- get;;
  if fileChooser s
  then call (SubmitFileChooser tab paths)
  else throw ActionFailed.

(* The remaining calls are made on the tab and on the Playwright page. *)
Definition tab_navigate (tab : nat) (url : string) : M unit :=
  call (TabNavigate tab url).

Definition page_goBack (tab : nat) : M unit := call (PageGoBack tab).

Definition page_goForward (tab : nat) : M unit :=
  call (PageGoForward tab).

Definition page_keyboard_press (tab : nat) (key : string) : M unit :=
  call (KeyboardPress tab key).

Definition page_setViewportSize (tab : nat) (width height : float) :
    M unit :=
  call (SetViewportSize tab width height);;
  modify (set_viewport (width, height)).

(* [page.evaluate] of the function that returns
   [Math.max(document.body.scrollHeight,
             document.documentElement.scrollHeight)]. *)
Definition page_evaluate_scrollHeight (tab : nat) : M float :=
  call (PageEvaluate tab);;
  env <- ask;;
  s <- get;;
  ret (Math.max (body_scrollHeight env (viewport s))
                (documentElement_scrollHeight env (viewport s))).

Definition page_pdf (tab : nat) (opts : PdfOptions) : M unit :=
  call (PagePdf tab opts).

(* [await new Promise(f => setTimeout(f, ms))]. *)
Definition setTimeout (ms : float) : M unit := note (SetTimeout ms).

(* --------------------------------------------------------------------- *)
(* common.ts                                                               *)
(* --------------------------------------------------------------------- *)

Record ToolSchema : Type := {
  name : string;
  description : string;
  inputSchema : Zod.JsonSchema;
}.

Record Tool : Type := {
  schema : ToolSchema;
  handle : json -> M ToolResult;
}.

Definition ToolFactory : Type := bool -> Tool.

(* A number inside a template literal, [`${x}`]. *)
Definition template (x : float) : M string :=
  env <- ask;;
  ret (number_toString env x).

Module Common.

Import Zod.

Definition navigateSchema : Shape (string * unit) :=
  SField "url" ZString SNil.

Definition url (p : string * unit) : string := fst p.

Definition navigate : ToolFactory := fun captureSnapshot => {|
  schema := {|
    name := "browser_navigate";
    description := "Navigate to a URL";
    inputSchema := zodToJsonSchema navigateSchema;
  |};
  handle := fun params =>
    validatedParams <- parse navigateSchema params;;
    currentTab <- ensureTab;;
    run currentTab (fun tab =>
      tab_navigate tab (url validatedParams)
    ) {|
      status := "Navigated to " +:+ url validatedParams;
      captureSnapshot := captureSnapshot;
      noClearFileChooser := None;
    |};
|}.

Definition goBackSchema : Shape unit := SNil.

Definition goBack : ToolFactory := fun snapshot => {|
  schema := {|
    name := "browser_go_back";
    description := "Go back to the previous page";
    inputSchema := zodToJsonSchema goBackSchema;
  |};
  handle := fun _ =>
    currentTab <- currentTab;;
    runAndWait currentTab (fun tab =>
      page_goBack tab
    ) {|
      status := "Navigated back";
      captureSnapshot := snapshot;
      noClearFileChooser := None;
    |};
|}.

Definition goForwardSchema : Shape unit := SNil.

Definition goForward : ToolFactory := fun snapshot => {|
  schema := {|
    name := "browser_go_forward";
    description := "Go forward to the next page";
    inputSchema := zodToJsonSchema goForwardSchema;
  |};
  handle := fun _ =>
    currentTab <- currentTab;;
    runAndWait currentTab (fun tab =>
      page_goForward tab
    ) {|
      status := "Navigated forward";
      captureSnapshot := snapshot;
      noClearFileChooser := None;
    |};
|}.

Definition waitSchema : Shape (float * unit) :=
  SField "time" ZNumber SNil.

Definition time (p : float * unit) : float := fst p.

Definition wait : Tool := {|
  schema := {|
    name := "browser_wait";
    description := "Wait for a specified time in seconds";
    inputSchema := zodToJsonSchema waitSchema;
  |};
  handle := fun params =>
    validatedParams <- parse waitSchema params;;
    setTimeout (Math.min 10000 (time validatedParams * 1000));;
    seconds <- template (time validatedParams);;
    ret (TextContent ("Waited for " +:+ seconds +:+ " seconds"));
|}.

Definition pressKeySchema : Shape (string * unit) :=
  SField "key" ZString SNil.

Definition key (p : string * unit) : string := fst p.

Definition pressKey : bool -> Tool := fun captureSnapshot => {|
  schema := {|
    name := "browser_press_key";
    description := "Press a key on the keyboard";
    inputSchema := zodToJsonSchema pressKeySchema;
  |};
  handle := fun params =>
    validatedParams <- parse pressKeySchema params;;
    currentTab <- currentTab;;
    runAndWait currentTab (fun tab =>
      page_keyboard_press tab (key validatedParams)
    ) {|
      status := "Pressed key " +:+ key validatedParams;
      captureSnapshot := captureSnapshot;
      noClearFileChooser := None;
    |};
|}.

Definition pdfSchema : Shape (option float * (option string * unit)) :=
  SField "width" (ZOptional ZNumber)
    (SField "fileName" (ZOptional ZString) SNil).

Definition width (p : option float * (option string * unit)) :
    option float := fst p.

Definition fileName (p : option float * (option string * unit)) :
    option string := fst (snd p).

Definition saveDir : string := "C:/Users/User/mcp_projects/shared".

Definition pdf : Tool := {|
  schema := {|
    name := "browser_save_as_pdf";
    description := "Save page as PDF";
    inputSchema := zodToJsonSchema pdfSchema;
  |};
  handle := fun params =>
    validatedParams <- parse pdfSchema params;;
    tab <- currentTab;;
    env <- ask;;
    let defaultFileName := "page-" +:+ toISOString_now env in
    let numericWidth := default 1400%float (width validatedParams) in
    let fileName := default defaultFileName (fileName validatedParams) in
    let filePath :=
      path_join env saveDir (sanitizeForFilePath env (fileName +:+ ".pdf")) in
    page_setViewportSize tab numericWidth 800;;
    scrollHeight <- page_evaluate_scrollHeight tab;;
    page_pdf tab {|
      pdf_path := filePath;
      pdf_printBackground := true;
      pdf_width := number_toString env numericWidth +:+ "px";
      pdf_height := number_toString env scrollHeight +:+ "px";
    |};;
    ret (TextContent ("Saved as " +:+ filePath +:+ " with width set to "
                      +:+ number_toString env numericWidth +:+ "px."));
|}.

Definition closeSchema : Shape unit := SNil.

Definition close : Tool := {|
  schema := {|
    name := "browser_close";
    description := "Close the page";
    inputSchema := zodToJsonSchema closeSchema;
  |};
  handle := fun _ =>
    context_close;;
    ret (TextContent "Page closed");
|}.

Definition chooseFileSchema : Shape (list string * unit) :=
  SField "paths" (ZArray ZString) SNil.

Definition paths (p : list string * unit) : list string := fst p.

(* [paths.join(', ')] *)
Definition join (sep : string) (l : list string) : string :=
  String.concat sep l.

Definition chooseFile : ToolFactory := fun captureSnapshot => {|
  schema := {|
    name := "browser_choose_file";
    description := "Choose one or multiple files to upload";
    inputSchema := zodToJsonSchema chooseFileSchema;
  |};
  handle := fun params =>
    validatedParams <- parse chooseFileSchema params;;
    tab <- currentTab;;
    runAndWait tab (fun _ =>
      submitFileChooser tab (paths validatedParams)
    ) {|
      status := "Chose files " +:+ join ", " (paths validatedParams);
      captureSnapshot := captureSnapshot;
      noClearFileChooser := Some true;
    |};
|}.

Definition install : Tool := {|
  schema := {|
    name := "browser_install";
    description := "Install the browser specified in the config. Call this if you get an error about the browser not being installed.";
    inputSchema := zodToJsonSchema SNil;
  |};
  handle := fun _ =>
    channel <- context_install;;
    ret (TextContent ("Browser " +:+ channel +:+ " installed"));
|}.

(* The tools of this file, for a given snapshot policy. *)
Definition tools (snapshot : bool) : list Tool :=
  [ navigate snapshot; goBack snapshot; goForward snapshot; wait;
    pressKey snapshot; pdf; close; chooseFile snapshot; install ].

End Common.

(* --------------------------------------------------------------------- *)
(* A JavaScript engine's rendering of numbers                              *)
(* --------------------------------------------------------------------- *)

(* [Number::toString] in radix 10, as ECMAScript defines it: the shortest
   decimal that reads back as the same double (the closest one to it when
   there are several), laid out in plain or in exponent notation.  It is
   the rendering of the concrete world below; the handlers take theirs
   from the environment. *)
Module Engine.

(* Powers of two and of ten, by shifting and by repeated squaring. *)
Definition pow2 (k : Z) : Z := Z.shiftl 1 (Z.max k 0).

Fixpoint pow_pos (b : Z) (n : positive) : Z :=
  match n with
  | xH => b
  | xO n' => let h := pow_pos b n' in h * h
  | xI n' => let h := pow_pos b n' in b * (h * h)
  end.

Definition pow10 (k : Z) : Z :=
  match k with
  | Zpos n => pow_pos 10 n
  | _ => 1
  end.

(* Compare [s * 10^p] with [u * 2^q], for [s] and [u] non-negative. *)
Definition compare_scaled (s p u q : Z) : comparison :=
  (s * pow10 p * pow2 (- q) ?= u * pow2 q * pow10 (- p)).

(* The largest integer [s] with [s * 10^p <= m * 2^e]. *)
Definition floor_scaled (m e p : Z) : Z :=
  (m * pow2 e * pow10 (- p)) / (pow2 (- e) * pow10 p).

(* The [n] with [10^(n-1) <= m * 2^e < 10^n], searched downwards from an
   upper bound that is at most three above it. *)
Fixpoint decimal_exponent (fuel : nat) (m e n : Z) : Z :=
  match fuel with
  | O => n
  | S fuel' =>
      match compare_scaled 1 (n - 1) m e with
      | Gt => decimal_exponent fuel' m e (n - 1)
      | _ => n
      end
  end.

(* Does [s * 10^p] round to the double [m * 2^e]?  The reals that round to
   it lie between the midpoints to its two neighbours, the midpoints
   included when [m] is even. *)
Definition rounds_to (m e s p : Z) : bool :=
  let below :=
    if (m =? pow2 52) && (-1074 <? e)
    then compare_scaled s p (4 * m - 1) (e - 2)
    else compare_scaled s p (2 * m - 1) (e - 1) in
  let above := compare_scaled s p (2 * m + 1) (e - 1) in
  match below, above with
  | Gt, Lt => true
  | Eq, Lt | Gt, Eq => Z.even m
  | _, _ => false
  end.

(* The [k]-digit decimals [s * 10^(n-k)] that round to [m * 2^e]; of two
   the closer one comes first, and of two equally close ones the even.
   [s17] is the largest integer with [s17 * 10^(n-17) <= m * 2^e], from
   which the largest [s0] with [s0 * 10^(n-k) <= m * 2^e] is obtained by
   dropping digits. *)
Definition candidates (m e k n s17 : Z) : list Z :=
  let p := n - k in
  let s0 := s17 / pow10 (17 - k) in
  let ok s := (pow10 (k - 1) <=? s) && (s <? pow10 k) && rounds_to m e s p in
  let ordered :=
    match compare_scaled (2 * s0 + 1) p (2 * m) e with
    | Gt => [s0; s0 + 1]
    | Lt => [s0 + 1; s0]
    | Eq => if Z.even s0 then [s0; s0 + 1] else [s0 + 1; s0]
    end in
  filter (fun s => Is_true (ok s)) ordered.

(* The shortest decimal [s * 10^(n-k)] that rounds to [m * 2^e]: the
   digits [s], their number [k] and the exponent [n], which is [nx] or
   [nx + 1] for [10^(nx-1) <= m * 2^e < 10^nx]. *)
Fixpoint shortest (fuel : nat) (m e nx lo hi k : Z) : Z * Z * Z :=
  match fuel with
  | O => (0, k, nx)
  | S fuel' =>
      match candidates m e k nx lo, candidates m e k (nx + 1) hi with
      | s :: _, _ => (s, k, nx)
      | [], s :: _ => (s, k, nx + 1)
      | [], [] => shortest fuel' m e nx lo hi (k + 1)
      end
  end.

Definition zeros (n : Z) : string := String.concat "" (replicate (Z.to_nat n) "0").

Definition take_string (n : Z) (s : string) : string :=
  String.substring 0 (Z.to_nat n) s.

Definition drop_string (n : Z) (s : string) : string :=
  String.substring (Z.to_nat n) (String.length s - Z.to_nat n) s.

(* Number::toString for a positive finite number, given its digits. *)
Definition layout (s k n : Z) : string :=
  let digits := pretty s in
  if (k <=? n) && (n <=? 21) then digits +:+ zeros (n - k)
  else if (0 <? n) && (n <=? 21)
       then take_string n digits +:+ "." +:+ drop_string n digits
  else if (-6 <? n) && (n <=? 0) then "0." +:+ zeros (- n) +:+ digits
  else
    let exponent :=
      (if n - 1 <? 0 then "-" else "+") +:+ pretty (Z.abs (n - 1)) in
    if k =? 1 then digits +:+ "e" +:+ exponent
    else take_string 1 digits +:+ "." +:+ drop_string 1 digits
         +:+ "e" +:+ exponent.

Definition finite_toString (m : positive) (e : Z) : string :=
  let bits := Z.log2 (Zpos m) + 1 + e in
  let nx := decimal_exponent 8 (Zpos m) e (bits * 30103 / 100000 + 2) in
  let lo := floor_scaled (Zpos m) e (nx - 17) in
  let hi := floor_scaled (Zpos m) e (nx + 1 - 17) in
  let '(s, k, n) := shortest 17 (Zpos m) e nx lo hi 1 in
  layout s k n.

(* Number::toString, radix 10. *)
Definition Number_toString (x : float) : string :=
  match Prim2SF x with
  | S754_nan => "NaN"
  | S754_zero _ => "0"
  | S754_infinity s => if s then "-Infinity" else "Infinity"
  | S754_finite s m e => (if s then "-" else "") +:+ finite_toString m e
  end.

End Engine.

(* --------------------------------------------------------------------- *)
(* A concrete world for running the handlers                               *)
(* --------------------------------------------------------------------- *)

Definition demo_env : Env := {|
  number_toString := Engine.Number_toString;
  sanitizeForFilePath := fun s => s;
  path_join := fun d f => d +:+ "/" +:+ f;
  toISOString_now := "2025-04-01T12:00:00.000Z";
  body_scrollHeight := fun v => (2 * fst v)%float;
  documentElement_scrollHeight := fun v => (fst v + 500)%float;
  rejects := fun _ => false;
  page_snapshot := Some "- document";
  install_channel := Some "chrome";
|}.

Definition fresh : State := {|
  current := None; tabs_created := 0%nat; fileChooser := false;
  viewport := (1280%float, 720%float); trace := [];
|}.

Definition open_tab : State := {|
  current := Some 0%nat; tabs_created := 1%nat; fileChooser := false;
  viewport := (1280%float, 720%float); trace := [];
|}.

Definition chooser_pending : State := {|
  current := Some 0%nat; tabs_created := 1%nat; fileChooser := true;
  viewport := (1280%float, 720%float); trace := [];
|}.

Definition obj (l : list (string * json)) : json := JObj (list_to_map l).

(* --------------------------------------------------------------------- *)
(* Vocabulary of the statements                                            *)
(* --------------------------------------------------------------------- *)

(* The keys a tool declares in its input schema. *)
Definition declared (t : Tool) : list string :=
  (Zod.properties (inputSchema (schema t))).*1.

(* The member [k] of [params] when [params] is an object that has a
   string under [k]. *)
Definition string_member (k : string) (params : json) : option string :=
  match params with
  | JObj o => match o !! k with Some (JStr u) => Some u | _ => None end
  | _ => None
  end.

(* The member [k] of [params] when [params] is an object that has a
   number other than NaN under [k]. *)
Definition number_member (k : string) (params : json) : option float :=
  match params with
  | JObj o =>
      match o !! k with
      | Some (JNum x) => if is_nan x then None else Some x
      | _ => None
      end
  | _ => None
  end.

(* An optional number that, when present, is not NaN. *)
Definition not_nan (w : option float) : Prop :=
  from_option (fun x => is_nan x = false) True w.

(* On the specification of floats: a zero, an infinity or a finite number
   of sign [s]; not NaN. *)
Definition signed (s : bool) (x : spec_float) : Prop :=
  match x with
  | S754_zero s' | S754_infinity s' | S754_finite s' _ _ => s' = s
  | S754_nan => False
  end.

(* What [binary_round_aux] returns once the rounded mantissa [m] and its
   exponent [e] are known: the mantissa is renormalised when rounding has
   carried it to 2^53, and the exponent may overflow. *)
Definition pack (s : bool) (m e : Z) : spec_float :=
  match m with
  | Z0 => S754_zero s
  | Zpos p =>
      if m <? 2 ^ 53
      then if e <=? 971 then S754_finite s p e else S754_infinity s
      else if e + 1 <=? 971
           then S754_finite s 4503599627370496 (e + 1)
           else S754_infinity s
  | Zneg _ => S754_nan
  end.


(* What one history tool does, for every parameter value and every world:
   its tab comes from [currentTab]; without a tab it fails with NoActiveTab
   and calls nothing else; with a tab it enters [runAndWait] on that tab
   with the fixed status [text], performs the history action [op] on it,
   and, unless the browser rejects [op], waits for the page to settle and
   returns the outcome whose status is [text]. *)
Definition history_contract (tool : Tool) (op : nat -> Event)
    (text : string) (snapshot : bool) : Prop :=
  forall (params : json) (env : Env) (s : State),
    let r := handle tool params env s in
    let opts := {| status := text; captureSnapshot := snapshot;
                   noClearFileChooser := None |} in
    match current s with
    | None => r = (inl NoActiveTab, log CurrentTab s)
    | Some tab =>
        exists rest,
          trace (snd r)
          = trace s ++ CurrentTab :: RunAndWait tab opts :: ClearFileChooser
                    :: op tab :: rest /\
          if rejects env (op tab)
          then fst r = inl ActionFailed /\ rest = []
          else fst r = inr (Outcome {|
                          outcome_status := text;
                          outcome_snapshot :=
                            if snapshot then page_snapshot env else None |}) /\
               rest = WaitForSettle
                        :: (if snapshot then [CaptureSnapshot] else [])
    end.

(* ===================================================================== *)
(* Proof tools                                                             *)
(* ===================================================================== *)

Create HintDb handler.
#[local] Hint Unfold bind ret throw ask get modify call note parse
  ensureTab currentTab context_close context_install run runAndWait run_action
  submitFileChooser tab_navigate page_goBack page_goForward
  page_keyboard_press page_setViewportSize page_evaluate_scrollHeight
  page_pdf setTimeout template : handler.

(* One branching point of a handler: a call the browser may reject, the
   current tab, the pending chooser, a flag. *)
Ltac branch :=
  match goal with
  | |- context [rejects ?env ?e] => destruct (rejects env e) eqn:?
  | |- context [match current ?s with _ => _ end] => destruct (current s) eqn:?
  | |- context [if fileChooser ?s then _ else _] => destruct (fileChooser s) eqn:?
  | |- context [if ?b then _ else _] => is_var b; destruct b
  end.

(* Run a handler symbolically, along every branch. *)
Ltac exec := autounfold with handler; cbn; repeat (branch; cbn).

(* Put a trace in the form [old ++ e1 :: e2 :: ...]. *)
Ltac flat := rewrite <- ?app_assoc; cbn [app].

(* An event that differs in its constructor from every element of a list
   is not in it. *)
Ltac absent :=
  let H := fresh in
  intros H;
  repeat (apply elem_of_cons in H as [H|H]; [discriminate H|]);
  by apply elem_of_nil in H.

(* Turn a hypothesis on the result of a handler into a goal, run the
   handler along every branch, and close the branches whose result is not
   the one assumed. *)
Ltac refute_result H := revert H; exec; intros H; try discriminate H.

(* The calls a handler added are determined by the trace it leaves: from
   [H : trace (snd (handle ...)) = trace s ++ ext], find [ext]. *)
Ltac added H :=
  revert H; exec; try (destruct (install_channel _); cbn); flat; intros H;
  first
    [ apply app_inv_head in H
    | match type of H with
      | ?l = ?l ++ ?e =>
          assert (e = [])
            by (symmetry; apply (app_inv_head l); rewrite app_nil_r; exact H)
      end ];
  subst.

(* Decide an implication from the membership of an event in a concrete
   list. *)
Ltac by_membership :=
  let Hin := fresh in
  intros Hin;
  repeat (apply elem_of_cons in Hin as [Hin|Hin]; try discriminate Hin);
  try (by apply elem_of_nil in Hin);
  try reflexivity;
  try (apply (bool_decide_unpack _); vm_compute; exact I).

(* ===================================================================== *)
(* Numbers                                                                 *)
(* ===================================================================== *)

Section Numbers.

(* A number is NaN exactly when its specification is. *)
Lemma is_nan_spec (x : float) : is_nan x = true <-> Prim2SF x = S754_nan.
Proof.
  unfold Prim2SF. destruct (is_nan x); [by split|].
  split; [discriminate|].
  destruct (is_zero x); [discriminate|].
  destruct (is_infinity x); [discriminate|].
  destruct (Z.frexp x) as [r e].
  destruct (shr_fexp _ _ _ _ _) as [mrs e'].
  by destruct (shr_m mrs).
Qed.

Lemma not_nan_spec (x : float) : is_nan x = false <-> Prim2SF x <> S754_nan.
Proof.
  rewrite <- is_nan_spec. by destruct (is_nan x).
Qed.

Lemma SFcompare_refl (x : spec_float) :
  x <> S754_nan -> SFcompare x x = Some Eq.
Proof.
  destruct x as [[]|[]| |[] m e]; try done; intros _; cbn;
    by rewrite Z.compare_refl, Pos.compare_cont_refl.
Qed.

Lemma SFcompare_antisym (x y : spec_float) :
  SFcompare y x = CompOpp <$> SFcompare x y.
Proof.
  destruct x as [[]|[]| |[] m e], y as [[]|[]| |[] m' e']; try reflexivity;
    cbn; rewrite (Z.compare_antisym e e');
    destruct (e ?= e'); cbn; try reflexivity;
    rewrite (Pos.compare_cont_antisym m m' Eq); cbn;
    by destruct (Pos.compare_cont Eq m m').
Qed.

Lemma SFcompare_total (x y : spec_float) :
  x <> S754_nan -> y <> S754_nan -> is_Some (SFcompare x y).
Proof.
  destruct x as [[]|[]| |[] m e], y as [[]|[]| |[] m' e']; try done;
    intros _ _; cbn; eauto.
Qed.


(* The three comparisons of floats, read on their specifications. *)
Lemma ltb_compare (x y : float) :
  (x <? y)%float = true <-> SFcompare (Prim2SF x) (Prim2SF y) = Some Lt.
Proof.
  rewrite ltb_spec. unfold SFltb.
  destruct (SFcompare _ _) as [[]|]; split; congruence.
Qed.

Lemma leb_compare (x y : float) :
  (x <=? y)%float = true <->
  SFcompare (Prim2SF x) (Prim2SF y) = Some Lt \/
  SFcompare (Prim2SF x) (Prim2SF y) = Some Eq.
Proof.
  rewrite leb_spec. unfold SFleb.
  destruct (SFcompare _ _) as [[]|]; split; intros; try done; eauto;
    by destruct H.
Qed.

Lemma ltb_leb (x y : float) : (x <? y)%float = true -> (x <=? y)%float = true.
Proof. rewrite ltb_compare, leb_compare. eauto. Qed.

Lemma leb_refl (x : float) : is_nan x = false -> (x <=? x)%float = true.
Proof.
  intros Hx. apply leb_compare. right. apply SFcompare_refl.
  by apply not_nan_spec.
Qed.

(* Two numbers neither of which is below the other compare as equal. *)
Lemma not_ltb_leb (x y : float) :
  is_nan x = false -> is_nan y = false ->
  (x <? y)%float = false -> (y <=? x)%float = true.
Proof.
  intros Hx%not_nan_spec Hy%not_nan_spec Hlt.
  apply leb_compare. rewrite SFcompare_antisym.
  destruct (SFcompare_total _ _ Hx Hy) as [c Hc].
  assert (c <> Lt).
  { intros ->. apply ltb_compare in Hc. congruence. }
  rewrite Hc. destruct c; cbn; eauto. done.
Qed.

(* [Math.min] of two numbers is one of them and is below both. *)
Lemma min_cases (a b : float) :
  is_nan a = false -> is_nan b = false ->
  Math.min a b = a \/ Math.min a b = b.
Proof.
  intros Ha Hb. unfold Math.min. rewrite Ha, Hb. cbn [orb].
  destruct (a <? b)%float; [by left|].
  destruct (b <? a)%float; [by right|].
  destruct (get_sign a); [by left | by right].
Qed.

Lemma min_le_l (a b : float) :
  is_nan a = false -> is_nan b = false ->
  (Math.min a b <=? a)%float = true.
Proof.
  intros Ha Hb. unfold Math.min. rewrite Ha, Hb. cbn [orb].
  destruct (a <? b)%float eqn:Hab; [by apply leb_refl|].
  destruct (b <? a)%float eqn:Hba; [by apply ltb_leb|].
  destruct (get_sign a); [by apply leb_refl|].
  by apply not_ltb_leb.
Qed.

Lemma min_le_r (a b : float) :
  is_nan a = false -> is_nan b = false ->
  (Math.min a b <=? b)%float = true.
Proof.
  intros Ha Hb. unfold Math.min. rewrite Ha, Hb. cbn [orb].
  destruct (a <? b)%float eqn:Hab; [by apply ltb_leb|].
  destruct (b <? a)%float eqn:Hba; [by apply leb_refl|].
  destruct (get_sign a); [by apply not_ltb_leb|].
  by apply leb_refl.
Qed.

(* When the second argument is below the first, [Math.min] is the second;
   when it is above, the first. *)
Lemma min_r (a b : float) : (b <? a)%float = true -> Math.min a b = b.
Proof.
  intros Hba. unfold Math.min.
  assert (Hc := proj1 (ltb_compare b a) Hba).
  assert (is_nan a = false /\ is_nan b = false) as [-> ->].
  { split; apply not_nan_spec; intros E; rewrite E in Hc;
      [by destruct (Prim2SF b) | done]. }
  cbn [orb]. rewrite Hba.
  destruct (a <? b)%float eqn:Hab; [|done].
  apply ltb_compare in Hab. rewrite SFcompare_antisym, Hc in Hab. done.
Qed.

Lemma min_l (a b : float) : (a <? b)%float = true -> Math.min a b = a.
Proof.
  intros Hab. unfold Math.min.
  assert (Hc := proj1 (ltb_compare a b) Hab).
  assert (is_nan a = false /\ is_nan b = false) as [-> ->].
  { split; apply not_nan_spec; intros E; rewrite E in Hc;
      [done | by destruct (Prim2SF a)]. }
  cbn [orb]. by rewrite Hab.
Qed.

(* --- The sign of a product ------------------------------------------- *)

Lemma shr_1_nonneg (mrs : shr_record) : 0 <= shr_m mrs -> 0 <= shr_m (shr_1 mrs).
Proof. destruct mrs as [[|[p|p|]|p] r s]; cbn; lia. Qed.

Lemma iter_shr_1_nonneg (p : positive) (mrs : shr_record) :
  0 <= shr_m mrs -> 0 <= shr_m (SpecFloat.iter_pos shr_1 p mrs).
Proof.
  revert mrs. induction p as [p IH|p IH|]; intros mrs H; cbn.
  - apply IH, IH. by apply shr_1_nonneg.
  - by apply IH, IH.
  - by apply shr_1_nonneg.
Qed.

Lemma shr_fexp_nonneg (m e : Z) (l : location) :
  0 <= m -> 0 <= shr_m (fst (shr_fexp prec emax m e l)).
Proof.
  intros Hm. unfold shr_fexp, shr.
  assert (0 <= shr_m (shr_record_of_loc m l)) by (by destruct l as [|[]]).
  destruct (_ - e) as [|p|p]; cbn; [done| |done].
  by apply iter_shr_1_nonneg.
Qed.

Lemma round_nearest_even_nonneg (m : Z) (l : location) :
  0 <= m -> 0 <= round_nearest_even m l.
Proof. intros Hm. destruct l as [|[]]; cbn; try lia. destruct (Z.even m); lia. Qed.

Lemma binary_round_aux_signed (s : bool) (m : positive) (e : Z) :
  signed s (binary_round_aux prec emax s (Zpos m) e loc_Exact).
Proof.
  unfold binary_round_aux.
  pose proof (shr_fexp_nonneg (Zpos m) e loc_Exact ltac:(lia)) as H1.
  destruct (shr_fexp prec emax (Zpos m) e loc_Exact) as [mrs' e'].
  cbn [fst] in H1.
  pose proof (shr_fexp_nonneg _ e' loc_Exact
                (round_nearest_even_nonneg _ (loc_of_shr_record mrs') H1))
    as H2.
  destruct (shr_fexp prec emax _ e' loc_Exact) as [mrs'' e''].
  cbn [fst] in H2.
  destruct (shr_m mrs'') as [|p|p]; [done| |lia].
  by destruct (_ <=? _).
Qed.

(* The product of a number with a positive finite one keeps the sign of
   the number. *)
Lemma SFmul_signed (x : spec_float) (m : positive) (e : Z) (s : bool) :
  signed s x ->
  signed s (SF64mul x (S754_finite false m e)).
Proof.
  destruct x as [s'|s'| |s' m' e']; cbn; try done.
  - intros ->. by destruct s.
  - intros ->. by destruct s.
  - intros ->. rewrite xorb_false_r. apply binary_round_aux_signed.
Qed.

(* --- Rounding a product ---------------------------------------------- *)

(* The number of binary digits of a positive integer. *)
Lemma digits2_pos_bounds (p : positive) :
  2 ^ (Zpos (digits2_pos p) - 1) <= Zpos p < 2 ^ Zpos (digits2_pos p).
Proof.
  induction p as [p IH|p IH|]; cbn [digits2_pos].
  - rewrite Pos2Z.inj_succ.
    replace (Z.succ (Zpos (digits2_pos p)) - 1)
      with (Z.succ (Zpos (digits2_pos p) - 1)) by lia.
    rewrite !Z.pow_succ_r by lia. lia.
  - rewrite Pos2Z.inj_succ.
    replace (Z.succ (Zpos (digits2_pos p)) - 1)
      with (Z.succ (Zpos (digits2_pos p) - 1)) by lia.
    rewrite !Z.pow_succ_r by lia. lia.
  - cbn. lia.
Qed.

(* Shifting right by one bit halves the mantissa. *)
Lemma shr_1_half (mrs : shr_record) :
  0 <= shr_m mrs -> shr_m (shr_1 mrs) = shr_m mrs / 2.
Proof.
  destruct mrs as [[|[p|p|]|p] r s]; cbn [shr_m shr_1]; intros H;
    try lia; try reflexivity.
  - rewrite (Pos2Z.inj_xI p). apply (Z.div_unique _ _ _ 1); lia.
  - rewrite (Pos2Z.inj_xO p). apply (Z.div_unique _ _ _ 0); lia.
Qed.

Lemma pow2_xO (p : positive) : 2 ^ Zpos p~0 = 2 ^ Zpos p * 2 ^ Zpos p.
Proof.
  rewrite (Pos2Z.inj_xO p). replace (2 * Zpos p) with (Zpos p + Zpos p) by lia.
  apply Z.pow_add_r; lia.
Qed.

Lemma pow2_xI (p : positive) : 2 ^ Zpos p~1 = 2 * (2 ^ Zpos p * 2 ^ Zpos p).
Proof.
  rewrite (Pos2Z.inj_xI p). replace (2 * Zpos p + 1) with (Z.succ (Zpos p~0)) by lia.
  rewrite Z.pow_succ_r by lia. by rewrite pow2_xO.
Qed.

Lemma iter_shr_1_div (p : positive) (mrs : shr_record) :
  0 <= shr_m mrs ->
  shr_m (SpecFloat.iter_pos shr_1 p mrs) = shr_m mrs / 2 ^ Zpos p.
Proof.
  revert mrs. induction p as [p IH|p IH|]; intros mrs H; cbn [SpecFloat.iter_pos].
  - rewrite IH by (apply iter_shr_1_nonneg; by apply shr_1_nonneg).
    rewrite IH by (by apply shr_1_nonneg).
    rewrite shr_1_half by done.
    assert (0 < 2 ^ Zpos p) by (apply Z.pow_pos_nonneg; lia).
    rewrite pow2_xI, !Z.div_div by lia. f_equal; lia.
  - rewrite IH by (by apply iter_shr_1_nonneg).
    rewrite IH by done.
    assert (0 < 2 ^ Zpos p) by (apply Z.pow_pos_nonneg; lia).
    rewrite pow2_xO, !Z.div_div by lia. reflexivity.
  - rewrite shr_1_half by done. reflexivity.
Qed.

Lemma round_nearest_even_bounds (m : Z) (l : location) :
  m <= round_nearest_even m l <= m + 1.
Proof. destruct l as [|[]]; cbn; try lia. destruct (Z.even m); lia. Qed.

(* The mantissa left by the first shift of a rounding. *)
Lemma shr_fexp_value (m e : Z) (l : location) :
  0 <= m ->
  let e' := Z.max e (fexp prec emax (Zdigits2 m + e)) in
  shr_fexp prec emax m e l
  = (fst (shr_fexp prec emax m e l), e') /\
  shr_m (fst (shr_fexp prec emax m e l)) = m / 2 ^ (e' - e).
Proof.
  intros Hm e'. subst e'. unfold shr_fexp, shr.
  assert (Hr : shr_m (shr_record_of_loc m l) = m) by (by destruct l as [|[]]).
  destruct (fexp prec emax (Zdigits2 m + e) - e) as [|p|p] eqn:Hn; cbn [fst].
  - replace (Z.max e _) with e by lia.
    rewrite Z.sub_diag, Z.div_1_r. by split.
  - replace (Z.max e _) with (e + Zpos p) by lia.
    split; [done|].
    rewrite iter_shr_1_div by lia. rewrite Hr. f_equal. f_equal. lia.
  - replace (Z.max e _) with e by lia.
    rewrite Z.sub_diag, Z.div_1_r. by split.
Qed.

Lemma fexp_ge (e : Z) : -1074 <= fexp prec emax e /\ e - 53 <= fexp prec emax e.
Proof. unfold fexp, SpecFloat.emin, prec, emax. lia. Qed.

Lemma digits_below (p : positive) (k : Z) :
  0 <= k -> Zpos p < 2 ^ k -> Zpos (digits2_pos p) <= k.
Proof.
  intros Hk Hp. destruct (digits2_pos_bounds p) as [Hlo _].
  apply Z.nlt_ge. intros Hlt.
  assert (2 ^ k <= 2 ^ (Zpos (digits2_pos p) - 1))
    by (apply Z.pow_le_mono_r; lia).
  lia.
Qed.

(* The rounded product of mantissa [M] and exponent [E]: its exponent is
   the canonical one, and its mantissa is [M] shifted to that exponent,
   or one more. *)
Lemma binary_round_aux_value (s : bool) (M : positive) (E : Z) :
  let e' := Z.max E (fexp prec emax (Zpos (digits2_pos M) + E)) in
  let m' := Zpos M / 2 ^ (e' - E) in
  exists m2,
    m' <= m2 <= m' + 1 /\
    binary_round_aux prec emax s (Zpos M) E loc_Exact = pack s m2 e'.
Proof.
  intros e' m'.
  assert (He' : -1074 <= e' /\ Zpos (digits2_pos M) + E - 53 <= e' /\ E <= e').
  { pose proof (fexp_ge (Zpos (digits2_pos M) + E)). lia. }
  assert (Hm' : 0 <= m' < 2 ^ 53).
  { subst m'. split; [apply Z.div_pos; [lia | apply Z.pow_pos_nonneg; lia]|].
    apply Z.div_lt_upper_bound; [apply Z.pow_pos_nonneg; lia|].
    rewrite <- Z.pow_add_r by lia.
    destruct (digits2_pos_bounds M) as [_ Hhi].
    eapply Z.lt_le_trans; [exact Hhi|]. apply Z.pow_le_mono_r; lia. }
  unfold binary_round_aux.
  destruct (shr_fexp_value (Zpos M) E loc_Exact ltac:(lia)) as [Heq Hval].
  cbn [Zdigits2] in Heq, Hval. fold e' in Heq, Hval. fold m' in Hval.
  rewrite Heq. clear Heq.
  set (m2 := round_nearest_even _ _).
  assert (Hm2 : m' <= m2 <= m' + 1).
  { subst m2. rewrite Hval. apply round_nearest_even_bounds. }
  exists m2. split; [done|].
  destruct (shr_fexp_value m2 e' loc_Exact ltac:(lia)) as [Heq2 Hval2].
  rewrite Heq2. clear Heq2. rewrite Hval2. clear Hval2.
  destruct m2 as [|p|p] eqn:Hp; [| |lia].
  - cbn [Zdigits2]. rewrite Z.div_0_l; [done|].
    apply Z.pow_nonzero; [lia|]. lia.
  - cbn [Zdigits2 pack].
    destruct (Z.ltb_spec (Zpos p) (2 ^ 53)) as [Hlt|Hge].
    + pose proof (digits_below p 53 ltac:(lia) Hlt).
      pose proof (fexp_ge (Zpos (digits2_pos p) + e')).
      assert (fexp prec emax (Zpos (digits2_pos p) + e') <= e')
        by (unfold fexp, SpecFloat.emin, prec, emax; lia).
      replace (Z.max e' _) with e' by lia.
      rewrite Z.sub_diag, Z.div_1_r. reflexivity.
    + assert (Zpos p = 2 ^ 53) as Hp53 by lia.
      assert (p = 9007199254740992%positive) as -> by (cbn in Hp53; lia).
      cbn [digits2_pos Pos.succ].
      replace (Z.max e' _) with (e' + 1)
        by (unfold fexp, SpecFloat.emin, prec, emax; lia).
      replace (e' + 1 - e') with 1 by lia.
      reflexivity.
Qed.

Lemma digits_above (p : positive) (k : Z) :
  0 <= k -> 2 ^ k <= Zpos p -> k + 1 <= Zpos (digits2_pos p).
Proof.
  intros Hk Hp. destruct (digits2_pos_bounds p) as [_ Hhi].
  apply Z.nlt_ge. intros Hlt.
  assert (2 ^ Zpos (digits2_pos p) <= 2 ^ k)
    by (apply Z.pow_le_mono_r; lia).
  lia.
Qed.

(* The mantissa and exponent of a finite number are canonical. *)
Lemma valid_finite (x : float) (s : bool) (m : positive) (e : Z) :
  Prim2SF x = S754_finite s m e ->
  fexp prec emax (Zpos (digits2_pos m) + e) = e /\ e <= 971.
Proof.
  intros Hx. pose proof (Prim2SF_valid x) as Hv. rewrite Hx in Hv.
  unfold SpecFloat.valid_binary, bounded, canonical_mantissa in Hv.
  apply andb_prop in Hv as [H1%Z.eqb_eq H2%Z.leb_le].
  unfold prec, emax in *. split; [done | lia].
Qed.

Lemma valid_mantissa (x : float) (s : bool) (m : positive) (e : Z) :
  Prim2SF x = S754_finite s m e ->
  Zpos m < 2 ^ 53 /\ (-1074 < e -> 2 ^ 52 <= Zpos m).
Proof.
  intros [Hc _]%valid_finite.
  unfold fexp, SpecFloat.emin, prec, emax in Hc.
  destruct (digits2_pos_bounds m) as [Hlo Hhi].
  split.
  - eapply Z.lt_le_trans; [exact Hhi|]. apply Z.pow_le_mono_r; lia.
  - intros He. replace (Zpos (digits2_pos m)) with 53 in Hlo by lia.
    exact Hlo.
Qed.

Lemma Prim2SF_1000 : Prim2SF 1000 = S754_finite false 8796093022208000 (-43).
Proof. reflexivity. Qed.

Lemma Prim2SF_10000 : Prim2SF 10000 = S754_finite false 5497558138880000 (-39).
Proof. reflexivity. Qed.

Lemma Prim2SF_10 : Prim2SF 10 = S754_finite false 5629499534213120 (-49).
Proof. reflexivity. Qed.

(* A finite number times 1000, before the final packing. *)
Lemma mul_1000_finite (t : float) (s : bool) (m : positive) (e : Z) :
  Prim2SF t = S754_finite s m e ->
  let M := (m * 8796093022208000)%positive in
  let e' := Z.max (e - 43) (fexp prec emax (Zpos (digits2_pos M) + (e - 43))) in
  exists m2,
    Zpos M / 2 ^ (e' - (e - 43)) <= m2 <= Zpos M / 2 ^ (e' - (e - 43)) + 1 /\
    Prim2SF (t * 1000) = pack s m2 e'.
Proof.
  intros Ht M e'.
  pose proof (binary_round_aux_value s M (e - 43)) as H. cbv zeta in H.
  destruct H as (m2 & Hm2 & Hr).
  exists m2. split; [exact Hm2|].
  rewrite mul_spec, Ht, Prim2SF_1000. unfold SF64mul. cbn [SFmul].
  replace (xorb s false) with s by (by destruct s).
  replace (e + -43) with (e - 43) by lia. exact Hr.
Qed.

Lemma SFleb_pack_above (m2 e' : Z) :
  0 < m2 ->
  -39 < e' \/ (e' = -39 /\ 5497558138880000 <= m2) ->
  SFleb (S754_finite false 5497558138880000 (-39)) (pack false m2 e') = true.
Proof.
  intros Hpos He. destruct m2 as [|p|p]; [lia| |lia].
  unfold pack.
  destruct (Z.ltb_spec (Zpos p) (2 ^ 53)) as [Hp|Hp];
    change (2 ^ 53) with 9007199254740992 in Hp.
  - destruct (Z.leb_spec e' 971); [|reflexivity].
    unfold SFleb, SFcompare.
    destruct (Z.compare_spec (-39) e') as [Heq|Hlt|Hgt]; [|done|lia].
    rewrite Pos.compare_cont_spec. cbn [Pos.switch_Eq].
    rewrite Pos2Z.inj_compare.
    destruct (Z.compare_spec 5497558138880000 (Zpos p)); try done. lia.
  - destruct (Z.leb_spec (e' + 1) 971); [|reflexivity].
    unfold SFleb, SFcompare.
    destruct (Z.compare_spec (-39) (e' + 1)) as [Heq|Hlt|Hgt]; [lia|done|lia].
Qed.

Lemma SFleb_pack_below (m2 e' : Z) :
  0 <= m2 ->
  e' <= -40 \/ (e' = -39 /\ m2 <= 5497558138880000) ->
  SFleb (pack false m2 e') (S754_finite false 5497558138880000 (-39)) = true.
Proof.
  intros Hpos He. destruct m2 as [|p|p]; [reflexivity| |lia].
  unfold pack.
  destruct (Z.ltb_spec (Zpos p) (2 ^ 53)) as [Hp|Hp];
    change (2 ^ 53) with 9007199254740992 in Hp.
  - destruct (Z.leb_spec e' 971); [|lia].
    unfold SFleb, SFcompare.
    destruct (Z.compare_spec e' (-39)) as [Heq|Hlt|Hgt]; [|done|lia].
    rewrite Pos.compare_cont_spec. cbn [Pos.switch_Eq].
    rewrite Pos2Z.inj_compare.
    destruct (Z.compare_spec (Zpos p) 5497558138880000); try done. lia.
  - destruct (Z.leb_spec (e' + 1) 971); [|lia].
    unfold SFleb, SFcompare.
    destruct (Z.compare_spec (e' + 1) (-39)) as [Heq|Hlt|Hgt]; [|done|lia].
    reflexivity.
Qed.

(* Ten seconds or more are ten thousand milliseconds or more. *)
Lemma mul_1000_above (t : float) :
  (10 <=? t)%float = true -> (10000 <=? t * 1000)%float = true.
Proof.
  rewrite !leb_spec, Prim2SF_10, Prim2SF_10000.
  destruct (Prim2SF t) as [s|s| |s m e] eqn:Ht.
  - by destruct s.
  - destruct s; [done|]. intros _.
    rewrite mul_spec, Ht, Prim2SF_1000. reflexivity.
  - done.
  - destruct s; [done|]. intros Hle.
    assert (He : -49 < e \/ (e = -49 /\ 5629499534213120 <= Zpos m)).
    { revert Hle. unfold SFleb, SFcompare.
      destruct (Z.compare_spec (-49) e) as [Heq|Hlt|Hgt]; [|lia|done].
      rewrite Pos.compare_cont_spec. cbn [Pos.switch_Eq].
      rewrite Pos2Z.inj_compare.
      destruct (Z.compare_spec 5629499534213120 (Zpos m)); try done; lia. }
    destruct (valid_mantissa _ _ _ _ Ht) as [Hhi Hlo].
    specialize (Hlo ltac:(lia)).
    destruct (mul_1000_finite _ _ _ _ Ht) as (m2 & Hm2 & ->).
    set (M := (m * 8796093022208000)%positive) in *.
    assert (HM : Zpos M = Zpos m * 8796093022208000) by reflexivity.
    assert (Hd : Zpos (digits2_pos M) = 105 \/ Zpos (digits2_pos M) = 106).
    { pose proof (digits_below M 106 ltac:(lia)) as H1.
      pose proof (digits_above M 104 ltac:(lia)) as H2.
      change (2 ^ 106) with 81129638414606681695789005144064 in H1.
      change (2 ^ 104) with 20282409603651670423947251286016 in H2.
      change (2 ^ 52) with 4503599627370496 in Hlo.
      change (2 ^ 53) with 9007199254740992 in Hhi.
      lia. }
    unfold fexp, SpecFloat.emin, prec, emax in *.
    change (2 ^ 52) with 4503599627370496 in Hlo.
    change (2 ^ 53) with 9007199254740992 in Hhi.
    apply SFleb_pack_above.
    + destruct Hd as [Hd|Hd]; rewrite Hd in Hm2;
        [replace (Z.max (e - 43) (Z.max (105 + (e - 43) - 53) (3 - 1024 - 53))
                  - (e - 43)) with 52 in Hm2 by lia
        |replace (Z.max (e - 43) (Z.max (106 + (e - 43) - 53) (3 - 1024 - 53))
                  - (e - 43)) with 53 in Hm2 by lia];
        [change (2 ^ 52) with 4503599627370496 in Hm2
        |change (2 ^ 53) with 9007199254740992 in Hm2];
        rewrite HM in Hm2; clear - Hm2 Hlo Hhi;
        Z.to_euclidean_division_equations; lia.
    + destruct Hd as [Hd|Hd]; rewrite Hd in Hm2 |- *.
      * replace (Z.max (e - 43) (Z.max (105 + (e - 43) - 53) (3 - 1024 - 53))
                  - (e - 43)) with 52 in Hm2 by lia.
        change (2 ^ 52) with 4503599627370496 in Hm2.
        rewrite HM in Hm2.
        assert (2 ^ 105 <= Zpos M -> False).
        { intros H105%digits_above; lia. }
        change (2 ^ 105) with 40564819207303340847894502572032 in H.
        clear - Hm2 Hlo Hhi He H HM.
        Z.to_euclidean_division_equations.
        destruct (Z.eq_dec e (-48)); [right | left]; lia.
      * replace (Z.max (e - 43) (Z.max (106 + (e - 43) - 53) (3 - 1024 - 53))
                  - (e - 43)) with 53 in Hm2 by lia.
        change (2 ^ 53) with 9007199254740992 in Hm2.
        rewrite HM in Hm2.
        clear - Hm2 Hlo Hhi He.
        Z.to_euclidean_division_equations.
        destruct (Z.eq_dec e (-49)); [right | left]; lia.
Qed.

Lemma SFleb_pack_negative (m2 e' : Z) (m : positive) (e : Z) :
  0 <= m2 -> SFleb (pack true m2 e') (S754_finite false m e) = true.
Proof.
  intros Hpos. destruct m2 as [|p|p]; [reflexivity| |lia].
  unfold pack. by repeat destruct (_ <? _), (_ <=? _).
Qed.

(* Ten seconds or fewer are ten thousand milliseconds or fewer. *)
Lemma mul_1000_below (t : float) :
  (t <=? 10)%float = true -> (t * 1000 <=? 10000)%float = true.
Proof.
  rewrite !leb_spec, Prim2SF_10, Prim2SF_10000.
  destruct (Prim2SF t) as [s|s| |s m e] eqn:Ht.
  - intros _. rewrite mul_spec, Ht, Prim2SF_1000. reflexivity.
  - destruct s; [|done]. intros _.
    rewrite mul_spec, Ht, Prim2SF_1000. reflexivity.
  - done.
  - intros Hle.
    destruct (valid_mantissa _ _ _ _ Ht) as [Hhi Hlo].
    destruct (valid_finite _ _ _ _ Ht) as [Hc _].
    destruct (decide (s = false /\ e = -49 /\ m = 5629499534213120%positive))
      as [(-> & -> & ->)|Hne].
    { assert (t = 10%float) as ->
        by (apply Prim2SF_inj; by rewrite Ht, Prim2SF_10).
      reflexivity. }
    pose proof (mul_1000_finite _ _ _ _ Ht) as H. cbv zeta in H.
    destruct H as (m2 & Hm2 & ->).
    set (M := (m * 8796093022208000)%positive) in *.
    assert (HM : Zpos M = Zpos m * 8796093022208000) by reflexivity.
    assert (Hx : 0 <= Z.max (e - 43)
                        (fexp prec emax (Zpos (digits2_pos M) + (e - 43)))
                      - (e - 43)) by lia.
    assert (Hm2' : 0 <= m2).
    { etrans; [|apply Hm2]. apply Z.div_pos; [lia|].
      by apply Z.pow_pos_nonneg. }
    clear Hx.
    destruct s; [by apply SFleb_pack_negative|].
    assert (He : e < -49 \/ (e = -49 /\ Zpos m < 5629499534213120)).
    { revert Hle Hne. clear. unfold SFleb, SFcompare.
      destruct (Z.compare_spec e (-49)) as [Heq|Hlt|Hgt]; [|lia|done].
      rewrite Pos.compare_cont_spec. cbn [Pos.switch_Eq].
      rewrite Pos2Z.inj_compare.
      destruct (Z.compare_spec (Zpos m) 5629499534213120) as [E|E|E];
        try done; [|lia].
      intros _ Hne. destruct Hne. split_and!; [done..|]. by injection E. }
    assert (Hd : Zpos (digits2_pos M) <= 106).
    { apply digits_below; [lia|].
      change (2 ^ 106) with 81129638414606681695789005144064.
      change (2 ^ 53) with 9007199254740992 in Hhi. lia. }
    change (2 ^ 53) with 9007199254740992 in Hhi.
    change (2 ^ 52) with 4503599627370496 in Hlo.
    apply SFleb_pack_below; [done|].
    unfold fexp, SpecFloat.emin, prec, emax in *.
    destruct (Z.eq_dec e (-49)) as [->|]; [|left; lia].
    specialize (Hlo ltac:(lia)).
    assert (Hd' : 105 <= Zpos (digits2_pos M)).
    { apply (digits_above M 104); [lia|].
      change (2 ^ 104) with 20282409603651670423947251286016. lia. }
    destruct (Z.eq_dec (Zpos (digits2_pos M)) 105) as [Hd5|Hd5];
      [left; lia | right].
    assert (Hd6 : Zpos (digits2_pos M) = 106) by lia.
    rewrite Hd6 in Hm2 |- *. split; [lia|].
    replace (Z.max (-49 - 43) (Z.max (106 + (-49 - 43) - 53) (3 - 1024 - 53))
             - (-49 - 43)) with 53 in Hm2 by lia.
    change (2 ^ 53) with 9007199254740992 in Hm2.
    rewrite HM in Hm2. clear - Hm2 He.
    Z.to_euclidean_division_equations. lia.
Qed.

(* --- Order facts used by the timer ------------------------------------ *)

Lemma leb_not_nan (x y : float) :
  (x <=? y)%float = true -> is_nan x = false /\ is_nan y = false.
Proof.
  intros H%leb_compare.
  split; apply not_nan_spec; intros E; rewrite E in H;
    [by destruct H | by destruct (Prim2SF x), H].
Qed.

Lemma not_leb_leb (x y : float) :
  is_nan x = false -> is_nan y = false ->
  (x <=? y)%float = false -> (y <=? x)%float = true.
Proof.
  intros Hx Hy Hle. apply not_ltb_leb; [done..|].
  destruct (x <? y)%float eqn:Hlt; [|done].
  apply ltb_leb in Hlt. congruence.
Qed.

Lemma leb_not_ltb (x y : float) :
  (x <=? y)%float = true -> (y <? x)%float = false.
Proof.
  intros Hle%leb_compare. destruct (y <? x)%float eqn:Hlt; [|done].
  apply ltb_compare in Hlt. rewrite SFcompare_antisym in Hlt.
  by destruct Hle as [E|E]; rewrite E in Hlt.
Qed.

Lemma signed_not_nan (x : float) :
  is_nan x = false -> exists s, signed s (Prim2SF x).
Proof.
  intros Hx%not_nan_spec.
  destruct (Prim2SF x) as [s|s| |s m e]; [by exists s..|done|by exists s].
Qed.

Lemma mul_1000_signed (t : float) (s : bool) :
  signed s (Prim2SF t) -> signed s (Prim2SF (t * 1000)).
Proof.
  intros H. rewrite mul_spec, Prim2SF_1000. by apply SFmul_signed.
Qed.

Lemma mul_1000_not_nan (t : float) :
  is_nan t = false -> is_nan (t * 1000) = false.
Proof.
  intros [s Hs%mul_1000_signed]%signed_not_nan.
  apply not_nan_spec. intros E. by rewrite E in Hs.
Qed.

(* A time that is not negative gives a product that is not negative. *)
Lemma mul_1000_nonneg (t : float) :
  (0 <=? t)%float = true -> (0 <=? t * 1000)%float = true.
Proof.
  rewrite !leb_spec. change (Prim2SF 0) with (S754_zero false).
  intros Hle.
  assert (Hs : exists s, signed s (Prim2SF t) /\
                 (s = false \/ exists s', Prim2SF t = S754_zero s')).
  { destruct (Prim2SF t) as [s|[]| |[] m e]; try done;
      [exists s | exists false | exists false]; cbn; eauto. }
  destruct Hs as (s & Hs & Hz).
  destruct Hz as [->|[s' Ht]].
  - apply mul_1000_signed in Hs.
    by destruct (Prim2SF (t * 1000)) as [?|[]| |[] ? ?].
  - rewrite mul_spec, Ht, Prim2SF_1000. reflexivity.
Qed.

(* The mantissa of a finite number times 1000 is not rounded to zero. *)
Lemma mul_1000_mantissa (m : positive) (e : Z) :
  -1074 <= e ->
  let M := (m * 8796093022208000)%positive in
  let e' := Z.max (e - 43) (fexp prec emax (Zpos (digits2_pos M) + (e - 43))) in
  1 <= Zpos M / 2 ^ (e' - (e - 43)).
Proof.
  intros He M e'.
  assert (HM : Zpos M = Zpos m * 8796093022208000) by reflexivity.
  destruct (digits2_pos_bounds M) as [Hlo _].
  set (x := e' - (e - 43)).
  assert (Hx : 0 <= x /\ (x <= Zpos (digits2_pos M) - 1 \/ x <= 43)).
  { subst x e'. unfold fexp, SpecFloat.emin, prec, emax. lia. }
  assert (2 ^ x <= Zpos M).
  { destruct Hx as [Hx0 [Hx|Hx]].
    - etrans; [|exact Hlo]. apply Z.pow_le_mono_r; lia.
    - etrans; [apply (Z.pow_le_mono_r 2 x 43); lia|].
      change (2 ^ 43) with 8796093022208. lia. }
  apply Z.div_le_lower_bound; [apply Z.pow_pos_nonneg; lia | lia].
Qed.

(* A negative time gives a negative product. *)
Lemma mul_1000_negative (t : float) :
  (t <? 0)%float = true -> (t * 1000 <? 0)%float = true.
Proof.
  rewrite !ltb_spec. change (Prim2SF 0) with (S754_zero false).
  destruct (Prim2SF t) as [s|s| |s m e] eqn:Ht; try done.
  - destruct s; [|done]. intros _.
    rewrite mul_spec, Ht, Prim2SF_1000. reflexivity.
  - destruct s; [|done]. intros _.
    destruct (valid_finite _ _ _ _ Ht) as [Hc _].
    pose proof (mul_1000_finite _ _ _ _ Ht) as H. cbv zeta in H.
    destruct H as (m2 & Hm2 & ->).
    assert (-1074 <= e)
      by (revert Hc; unfold fexp, SpecFloat.emin, prec, emax; lia).
    pose proof (mul_1000_mantissa m e ltac:(done)) as Hm. cbv zeta in Hm.
    destruct m2 as [|p|p]; [lia| |lia].
    unfold pack. by repeat destruct (_ <? _), (_ <=? _).
Qed.

(* [Math.min] against ten thousand. *)
Lemma min_10000_above (b : float) :
  (10000 <=? b)%float = true -> Math.min 10000 b = 10000%float.
Proof.
  intros Hle. destruct (leb_not_nan _ _ Hle) as [Ha Hb].
  unfold Math.min. rewrite Ha, Hb. cbn [orb].
  destruct (10000 <? b)%float eqn:Hlt; [done|].
  rewrite (leb_not_ltb _ _ Hle). change (get_sign 10000) with false.
  apply leb_compare in Hle as [Hc|Hc].
  { apply ltb_compare in Hc. congruence. }
  apply Prim2SF_inj. rewrite Prim2SF_10000 in Hc |- *.
  destruct (Prim2SF b) as [s|s| |s m e]; try done; [by destruct s|].
  destruct s; [done|]. cbn [SFcompare] in Hc. revert Hc.
  destruct (Z.compare_spec (-39) e) as [<-|_|_]; try done.
  rewrite Pos.compare_cont_spec.
  destruct (5497558138880000 ?= m)%positive eqn:E; try done.
  apply Pos.compare_eq in E. by rewrite E.
Qed.

Lemma min_10000_below (b : float) :
  (b <=? 10000)%float = true -> Math.min 10000 b = b.
Proof.
  intros Hle. destruct (leb_not_nan _ _ Hle) as [Hb Ha].
  unfold Math.min. rewrite Ha, Hb. cbn [orb].
  rewrite (leb_not_ltb _ _ Hle). change (get_sign 10000) with false.
  by destruct (b <? 10000)%float.
Qed.

(* The delay of the timer: ten seconds from ten seconds on, and the
   requested time in milliseconds below. *)
Lemma min_10000 (t : float) :
  is_nan t = false ->
  Math.min 10000 (t * 1000)
  = if (10 <=? t)%float then 10000%float else (t * 1000)%float.
Proof.
  intros Ht. destruct (10 <=? t)%float eqn:Hle.
  - by apply min_10000_above, mul_1000_above.
  - apply min_10000_below, mul_1000_below. by apply not_leb_leb.
Qed.

(* [Math.min] against ten. *)
Lemma min_10_above (t : float) :
  (10 <=? t)%float = true -> Math.min t 10 = 10%float.
Proof.
  intros Hle. destruct (leb_not_nan _ _ Hle) as [Ha Hb].
  unfold Math.min. rewrite Ha, Hb. cbn [orb].
  rewrite (leb_not_ltb _ _ Hle).
  destruct (10 <? t)%float eqn:Hlt; [done|].
  assert (t = 10%float) as ->; [|reflexivity].
  apply leb_compare in Hle as [Hc|Hc].
  { apply ltb_compare in Hc. congruence. }
  apply Prim2SF_inj. rewrite Prim2SF_10 in Hc |- *.
  destruct (Prim2SF t) as [s|s| |s m e]; try done; [by destruct s|].
  destruct s; [done|]. cbn [SFcompare] in Hc. revert Hc.
  destruct (Z.compare_spec (-49) e) as [<-|_|_]; try done.
  rewrite Pos.compare_cont_spec.
  destruct (5629499534213120 ?= m)%positive eqn:E; try done.
  apply Pos.compare_eq in E. by rewrite E.
Qed.

Lemma min_10_below (t : float) :
  is_nan t = false -> (10 <=? t)%float = false -> Math.min t 10 = t.
Proof.
  intros Ht Hle. apply min_l.
  destruct (t <? 10)%float eqn:Hlt; [done|].
  by rewrite (not_ltb_leb t 10 Ht eq_refl Hlt) in Hle.
Qed.

(* The delay is the smaller of the requested time and ten seconds, in
   milliseconds. *)
Lemma min_10000_seconds (t : float) :
  is_nan t = false ->
  Math.min 10000 (t * 1000) = (Math.min t 10 * 1000)%float.
Proof.
  intros Ht. rewrite (min_10000 t Ht).
  destruct (10 <=? t)%float eqn:Hle.
  - by rewrite (min_10_above t Hle).
  - by rewrite (min_10_below t Ht Hle).
Qed.

(* The delay is negative exactly when the requested time is. *)
Lemma min_10000_sign (t : float) :
  is_nan t = false ->
  (Math.min 10000 (t * 1000) <? 0)%float = (t <? 0)%float.
Proof.
  intros Ht. destruct (t <? 0)%float eqn:Hlt.
  - pose proof (mul_1000_negative _ Hlt) as Hneg.
    rewrite min_r; [done|].
    apply ltb_compare in Hneg. apply ltb_compare.
    rewrite Prim2SF_10000. change (Prim2SF 0) with (S754_zero false) in Hneg.
    by destruct (Prim2SF (t * 1000)) as [?|[]| |[] ? ?].
  - assert (H0 : (0 <=? t * 1000)%float = true).
    { apply mul_1000_nonneg, not_ltb_leb; done. }
    destruct (min_cases 10000 (t * 1000) eq_refl (mul_1000_not_nan _ Ht))
      as [->| ->]; [reflexivity|].
    by apply leb_not_ltb.
Qed.

End Numbers.

(* ===================================================================== *)
(* Validation                                                              *)
(* ===================================================================== *)

Section Validation.

Import Zod.

Lemma zodToJsonSchema_keys {A} (sh : Shape A) :
  (properties (zodToJsonSchema sh)).*1 = shape_keys sh.
Proof.
  induction sh as [|A B k t rest IH]; [reflexivity|].
  cbn. by rewrite IH.
Qed.

(* A key outside the shape is never read. *)
Lemma parse_shape_insert_undeclared {A} (sh : Shape A) (o : gmap string json)
    (k : string) (v : json) :
  k ∉ shape_keys sh -> parse_shape sh (<[k:=v]> o) = parse_shape sh o.
Proof.
  induction sh as [|A B k' t rest IH]; intros Hk; [reflexivity|].
  cbn in Hk. apply not_elem_of_cons in Hk as [Hne Hrest].
  cbn. rewrite lookup_insert_ne by done. by rewrite IH.
Qed.

Lemma parse_insert_undeclared {A} (sh : Shape A) (o : gmap string json)
    (k : string) (v : json) :
  k ∉ shape_keys sh -> parse sh (JObj (<[k:=v]> o)) = parse sh (JObj o).
Proof.
  intros Hk. unfold parse. cbn.
  by rewrite parse_shape_insert_undeclared.
Qed.


(* An optional member that is absent or of the right kind is accepted. *)
Lemma parse_optional_number (v : option json) (w : option float) :
  v = JNum <$> w -> not_nan w -> parse_type (ZOptional ZNumber) v = Some w.
Proof. intros -> Hw. destruct w as [x|]; [|done]. cbn in *. by rewrite Hw. Qed.

Lemma parse_optional_string (v : option json) (f : option string) :
  v = JStr <$> f -> parse_type (ZOptional ZString) v = Some f.
Proof. intros ->. by destruct f. Qed.

End Validation.

(* ===================================================================== *)
(* Strings                                                                 *)
(* ===================================================================== *)

Lemma append_length (s1 s2 : string) :
  String.length (s1 +:+ s2) = (String.length s1 + String.length s2)%nat.
Proof.
  induction s1 as [|a s1 IH]; [reflexivity|].
  change (S (String.length (s1 +:+ s2))
          = S (String.length s1 + String.length s2)).
  by rewrite IH.
Qed.

(* A common suffix can be cancelled. *)
Lemma append_inj_r (s1 s2 t : string) : s1 +:+ t = s2 +:+ t -> s1 = s2.
Proof.
  revert s2. induction s1 as [|a s1 IH]; intros [|b s2] H.
  - reflexivity.
  - apply (f_equal String.length) in H. rewrite !append_length in H.
    cbn [String.length] in H. lia.
  - apply (f_equal String.length) in H. rewrite !append_length in H.
    cbn [String.length] in H. lia.
  - change (String a (s1 +:+ t) = String b (s2 +:+ t)) in H.
    injection H as -> H. f_equal. by apply IH.
Qed.

(* ===================================================================== *)
(* The rendering of the concrete world                                     *)
(* ===================================================================== *)

#[local] Set Warnings "-inexact-float".

(* [Engine.Number_toString] on whole, fractional, large, small and special
   numbers: what [String(x)] gives in a JavaScript engine. *)
Lemma Number_toString_examples :
  Engine.Number_toString 15 = "15" /\
  Engine.Number_toString (-5) = "-5" /\
  Engine.Number_toString 1.5 = "1.5" /\
  Engine.Number_toString 0.1 = "0.1" /\
  Engine.Number_toString (0.1 + 0.2) = "0.30000000000000004" /\
  Engine.Number_toString 1400 = "1400" /\
  Engine.Number_toString 123456789012345680000 = "123456789012345680000" /\
  Engine.Number_toString 1e21 = "1e+21" /\
  Engine.Number_toString 1.5e300 = "1.5e+300" /\
  Engine.Number_toString 0.000001 = "0.000001" /\
  Engine.Number_toString 1e-7 = "1e-7" /\
  Engine.Number_toString 5e-324 = "5e-324" /\
  Engine.Number_toString 1.7976931348623157e308 = "1.7976931348623157e+308" /\
  Engine.Number_toString (-9007199254740991 * 1000) = "-9007199254740991000" /\
  Engine.Number_toString neg_zero = "0" /\
  Engine.Number_toString infinity = "Infinity" /\
  Engine.Number_toString neg_infinity = "-Infinity" /\
  Engine.Number_toString nan = "NaN".
Proof. vm_compute. by split_and!. Qed.

(* ===================================================================== *)
(* browser_wait                                                            *)
(* ===================================================================== *)

(* At [time = -5] the handler does not fail with InvalidParams: validation
   succeeds, the timer is started with the negative delay -5000 and the
   call returns normally. *)
Lemma wait_accepts_negative_time :
  let r := handle Common.wait (obj [("time", JNum (-5)%float)])
             demo_env fresh in
  fst r <> inl InvalidParams /\
  r = (inr (TextContent "Waited for -5 seconds"),
       log (SetTimeout (-5000)%float) fresh).
Proof. vm_compute. split; [discriminate | reflexivity]. Qed.

(* Fractional, large and infinite times: 1.5 seconds are 1500
   milliseconds; the product of -9007199254740991 and 1000 is the double
   product, -9007199254740990976; an infinite time waits ten seconds. *)
Lemma wait_delay_examples :
  let delay t :=
    trace (snd (handle Common.wait (obj [("time", JNum t)]) demo_env fresh)) in
  delay 1.5%float = [SetTimeout 1500] /\
  delay 0.1%float = [SetTimeout 100] /\
  delay 9.9999%float = [SetTimeout 9999.9] /\
  delay 10.0001%float = [SetTimeout 10000] /\
  delay (-9007199254740991)%float = [SetTimeout (-9007199254740990976)] /\
  delay infinity = [SetTimeout 10000] /\
  delay neg_infinity = [SetTimeout neg_infinity] /\
  handle Common.wait (obj [("time", JNum nan)]) demo_env fresh
  = (inl InvalidParams, fresh).
Proof. vm_compute. by split_and!. Qed.

(** C1, as the code has it: every number [t] (a double other than NaN,
    whole or fractional, negative ones and the infinities included) passes
    validation, and the handler starts one timer whose delay is
    [Math.min(10000, t * 1000)] milliseconds, the product being the one of
    doubles.  That delay is min(t, 10) seconds: [Math.min(t, 10) * 1000],
    which is 10000 from [t = 10] on and [t * 1000] below; it is at most
    10000, and it is negative exactly when [t] is.  Only params without a
    number under [time] are rejected, with InvalidParams and before any
    timer is started. *)
Theorem wait_timer_delay (params : json) (env : Env) (s : State) :
  let r := handle Common.wait params env s in
  match number_member "time" params with
  | Some t =>
      let delay := Math.min 10000 (t * 1000) in
      (exists res, fst r = inr res) /\
      snd r = log (SetTimeout delay) s /\
      delay = (Math.min t 10 * 1000)%float /\
      delay = (if (10 <=? t)%float then 10000 else t * 1000)%float /\
      (delay <=? 10000)%float = true /\
      (delay <? 0)%float = (t <? 0)%float
  | None => r = (inl InvalidParams, s)
  end.
Proof.
  intros r. subst r. cbn [handle Common.wait]. unfold number_member.
  destruct params as [| | | | |o]; try reflexivity.
  unfold bind at 1. unfold parse.
  cbn [Zod.safeParse Common.waitSchema Zod.parse_shape Zod.parse_type].
  destruct (o !! "time") as [[| |t| | |]|]; try reflexivity.
  destruct (is_nan t) eqn:Ht; [reflexivity|].
  exec. split_and!; eauto.
  - by apply min_10000_seconds.
  - by apply min_10000.
  - by apply min_le_l, mul_1000_not_nan.
  - by apply min_10000_sign.
Qed.

(** C9: for every valid [time = t] the text of the response is
    "Waited for <t> seconds" with the requested [t] as the engine renders
    it, while the timer is started with [Math.min(10000, t * 1000)]
    milliseconds.  When [t] exceeds 10 that delay is 10000, and the text
    is not the one for 10 seconds wherever the engine renders [t] and 10
    differently. *)
Theorem wait_text_reports_request (o : gmap string json) (t : float)
    (env : Env) (s : State) :
  o !! "time" = Some (JNum t) ->
  is_nan t = false ->
  let r := handle Common.wait (JObj o) env s in
  fst r = inr (TextContent
                 ("Waited for " +:+ number_toString env t +:+ " seconds")) /\
  snd r = log (SetTimeout (Math.min 10000 (t * 1000))) s /\
  ((10 <? t)%float = true ->
   Math.min 10000 (t * 1000) = 10000%float /\
   (number_toString env t <> number_toString env 10%float ->
    fst r <> inr (TextContent
                    ("Waited for " +:+ number_toString env 10%float
                     +:+ " seconds")))).
Proof.
  intros Ho Ht r. subst r. cbn [handle Common.wait].
  unfold bind at 1. unfold parse.
  cbn [Zod.safeParse Common.waitSchema Zod.parse_shape Zod.parse_type].
  rewrite Ho, Ht. exec. split_and!; [reflexivity..|].
  intros Hgt. split.
  - by apply min_10000_above, mul_1000_above, ltb_leb.
  - intros Hne Heq. injection Heq as Heq.
    change (number_toString env t +:+ " seconds"
            = number_toString env 10%float +:+ " seconds") in Heq.
    by apply append_inj_r in Heq.
Qed.

Lemma wait_text_reports_request_witness :
  let o : gmap string json := {["time" := JNum 15]} in
  let r := handle Common.wait (JObj o) demo_env fresh in
  o !! "time" = Some (JNum 15) /\
  is_nan 15 = false /\
  (10 <? 15)%float = true /\
  number_toString demo_env 15 <> number_toString demo_env 10 /\
  fst r = inr (TextContent "Waited for 15 seconds") /\
  snd r = log (SetTimeout 10000) fresh /\
  fst r <> inr (TextContent "Waited for 10 seconds").
Proof.
  cbn zeta.
  assert (Hrender : number_toString demo_env 15 <> number_toString demo_env 10)
    by (vm_compute; discriminate).
  do 3 (split; [reflexivity|]). split; [exact Hrender|].
  destruct (wait_text_reports_request {["time" := JNum 15]} 15%float
              demo_env fresh)
    as (Htext & Hstate & Hover); [reflexivity..|].
  destruct Hover as [Hdelay Hother]; [reflexivity|].
  rewrite Hdelay in Hstate.
  split_and!; [exact Htext | exact Hstate | exact (Hother Hrender)].
Defined.

(* ===================================================================== *)
(* Undeclared fields                                                       *)
(* ===================================================================== *)

(* [extra] is not declared by browser_navigate, and params that carry it
   do not fail with InvalidParams: they are validated and acted on. *)
Lemma navigate_accepts_extra_field :
  let r := handle (Common.navigate false)
             (obj [("url", JStr "https://example.com"); ("extra", JNum 1)])
             demo_env fresh in
  ("extra" ∉ declared (Common.navigate false)) /\
  fst r <> inl InvalidParams /\
  r = (inr (Outcome {| outcome_status := "Navigated to https://example.com";
                     outcome_snapshot := None |}),
     {| current := Some 0%nat; tabs_created := 1%nat; fileChooser := false;
        viewport := (1280%float, 720%float);
        trace := [EnsureTab;
                  Run 0 {| status := "Navigated to https://example.com";
                           captureSnapshot := false;
                           noClearFileChooser := None |};
                  ClearFileChooser;
                  TabNavigate 0 "https://example.com"] |}).
Proof.
  split; [|split; [discriminate | vm_compute; reflexivity]].
  apply (bool_decide_unpack _). vm_compute. exact I.
Qed.

(** C2, as the code has it: for every tool of common.ts, a field that the
    tool's input shape does not declare is ignored: the handler behaves on
    the params with the extra field exactly as on the params without it
    (same result, same calls, same final state). *)
Theorem undeclared_fields_are_ignored (snapshot : bool) (tool : Tool)
    (k : string) (v : json) (o : gmap string json) (env : Env) (s : State) :
  tool ∈ Common.tools snapshot ->
  k ∉ declared tool ->
  handle tool (JObj (<[k:=v]> o)) env s = handle tool (JObj o) env s.
Proof.
  intros Hin Hk. unfold Common.tools in Hin.
  repeat (apply elem_of_cons in Hin as [-> | Hin]);
    try (by apply elem_of_nil in Hin);
    try reflexivity;
    unfold declared in Hk;
    cbn [schema inputSchema Common.navigate Common.wait Common.pressKey
         Common.pdf Common.chooseFile] in Hk;
    rewrite zodToJsonSchema_keys in Hk;
    cbn [handle Common.navigate Common.wait Common.pressKey Common.pdf
         Common.chooseFile];
    unfold bind at 1; rewrite parse_insert_undeclared by assumption;
    reflexivity.
Qed.

Lemma undeclared_fields_are_ignored_witness :
  Common.navigate false ∈ Common.tools false /\
  ("extra" ∉ declared (Common.navigate false)) /\
  handle (Common.navigate false)
    (JObj (<["extra":=JNum 1]> {["url" := JStr "https://example.com"]}))
    demo_env fresh
  = handle (Common.navigate false)
      (JObj {["url" := JStr "https://example.com"]}) demo_env fresh.
Proof.
  assert (Hin : Common.navigate false ∈ Common.tools false)
    by apply list_elem_of_here.
  assert (Hk : "extra" ∉ declared (Common.navigate false))
    by (apply (bool_decide_unpack _); vm_compute; exact I).
  split; [exact Hin|]. split; [exact Hk|].
  exact (undeclared_fields_are_ignored false _ "extra" (JNum 1) _ demo_env
           fresh Hin Hk).
Defined.

(* ===================================================================== *)
(* browser_navigate                                                        *)
(* ===================================================================== *)

(* A string that is no URL does not fail with InvalidParams: it passes
   validation and is handed to the tab. *)
Lemma navigate_accepts_implausible_url :
  let r := handle (Common.navigate false) (obj [("url", JStr "not a url")])
             demo_env fresh in
  fst r <> inl InvalidParams /\
  r = (inr (Outcome {| outcome_status := "Navigated to not a url";
                     outcome_snapshot := None |}),
     {| current := Some 0%nat; tabs_created := 1%nat; fileChooser := false;
        viewport := (1280%float, 720%float);
        trace := [EnsureTab;
                  Run 0 {| status := "Navigated to not a url";
                           captureSnapshot := false;
                           noClearFileChooser := None |};
                  ClearFileChooser;
                  TabNavigate 0 "not a url"] |}).
Proof. split; [discriminate|]. vm_compute. reflexivity. Qed.

(** C3, as the code has it: browser_navigate fails with InvalidParams, at
    validation and with nothing called, exactly when params is not an
    object with a string under [url].  Every string, a plausible URL or
    not, passes validation: the handler does not fail with InvalidParams
    and goes on to [ensureTab]. *)
Theorem navigate_validation (cs : bool) (params : json) (env : Env)
    (s : State) :
  let r := handle (Common.navigate cs) params env s in
  match string_member "url" params with
  | Some u =>
      fst r <> inl InvalidParams /\
      exists rest, trace (snd r) = trace s ++ EnsureTab :: rest
  | None => r = (inl InvalidParams, s)
  end.
Proof.
  intros r. subst r. cbn [handle Common.navigate]. unfold string_member.
  destruct params as [| | | | |o]; try reflexivity.
  unfold bind at 1. unfold parse.
  cbn [Zod.safeParse Common.navigateSchema Zod.parse_shape Zod.parse_type].
  destruct (o !! "url") as [[| | |u| |]|]; try reflexivity.
  exec; flat; (split; [done | eexists; reflexivity]).
Qed.

(** C5: for every valid [url], browser_navigate obtains its tab with
    [ensureTab] and never calls [currentTab]; on the tab obtained (the
    current one, or a new one when there is none) it enters the runner with
    the status "Navigated to <url>" and navigates to [url]; a successful
    result carries exactly that status; and the call succeeds whenever the
    browser rejects neither the tab nor the navigation. *)
Theorem navigate_ensureTab_status (cs : bool) (o : gmap string json)
    (u : string) (env : Env) (s : State) :
  o !! "url" = Some (JStr u) ->
  let r := handle (Common.navigate cs) (JObj o) env s in
  let tab := default (tabs_created s) (current s) in
  let opts := {| status := "Navigated to " +:+ u;
                 captureSnapshot := cs;
                 noClearFileChooser := None |} in
  (exists rest,
     trace (snd r) = trace s ++ EnsureTab :: rest /\
     (CurrentTab ∉ rest) /\
     (rejects env EnsureTab = false ->
      exists rest', rest = Run tab opts :: ClearFileChooser
                             :: TabNavigate tab u :: rest')) /\
  (forall res, fst r = inr res ->
     exists snap,
       res = Outcome {| outcome_status := "Navigated to " +:+ u;
                        outcome_snapshot := snap |}) /\
  (rejects env EnsureTab = false ->
   rejects env (TabNavigate tab u) = false ->
   exists res, fst r = inr res).
Proof.
  intros Hu. cbn zeta. cbn [handle Common.navigate].
  unfold bind at 1. unfold parse.
  cbn [Zod.safeParse Common.navigateSchema Zod.parse_shape Zod.parse_type].
  rewrite Hu. autounfold with handler. cbn.
  destruct (current s) as [t|] eqn:Hcur; cbn;
    repeat (branch; cbn); simplify_eq; try congruence; flat;
    (split;
     [eexists; split;
      [reflexivity |
       split; [absent | first [done | intros _; eexists; reflexivity]]] |
      split; [intros res [= <-] || (intros res Hres; discriminate Hres); eauto |
              first [done | by eauto]]]).
Qed.

Lemma navigate_ensureTab_status_witness :
  ({["url" := JStr "https://example.com"]} : gmap string json) !! "url"
  = Some (JStr "https://example.com") /\
  exists snap,
    fst (handle (Common.navigate true)
           (JObj {["url" := JStr "https://example.com"]}) demo_env fresh)
    = inr (Outcome {| outcome_status := "Navigated to https://example.com";
                      outcome_snapshot := snap |}).
Proof.
  split; [reflexivity|].
  destruct (navigate_ensureTab_status true
              {["url" := JStr "https://example.com"]} "https://example.com"
              demo_env fresh) as (_ & Hstatus & Hok); [reflexivity|].
  destruct (Hok eq_refl eq_refl) as [res Hres].
  destruct (Hstatus res Hres) as [snap ->].
  exists snap. exact Hres.
Defined.

(* ===================================================================== *)
(* browser_press_key                                                       *)
(* ===================================================================== *)

Lemma pressKey_missing_key (cs : bool) (o : gmap string json) (env : Env)
    (s : State) :
  o !! "key" = None ->
  handle (Common.pressKey cs) (JObj o) env s = (inl InvalidParams, s).
Proof.
  intros H. cbn [handle Common.pressKey]. unfold bind, parse. cbn.
  by rewrite H.
Qed.

(** C4: browser_press_key on the empty params record fails with
    InvalidParams and leaves the world as it was: the tab is not asked for,
    no runner is entered and no key is pressed. *)
Theorem pressKey_empty_params_rejected (cs : bool) (env : Env) (s : State) :
  handle (Common.pressKey cs) (JObj ∅) env s = (inl InvalidParams, s).
Proof. apply pressKey_missing_key. apply lookup_empty. Qed.

(* ===================================================================== *)
(* browser_go_back and browser_go_forward                                  *)
(* ===================================================================== *)

(** C6: browser_go_back and browser_go_forward obtain the tab with
    [currentTab] (NoActiveTab without one), enter [runAndWait], wait for
    the page to settle after the history action, and report
    "Navigated back" and "Navigated forward"; no parameter and no other
    part of the world is consulted. *)
Theorem history_tools_contract (snapshot : bool) :
  history_contract (Common.goBack snapshot) PageGoBack "Navigated back"
    snapshot /\
  history_contract (Common.goForward snapshot) PageGoForward
    "Navigated forward" snapshot.
Proof.
  split; intros params env s; cbn zeta;
    cbn [handle Common.goBack Common.goForward];
    autounfold with handler; cbn;
    destruct (current s) eqn:Hcur; cbn; try reflexivity;
    destruct (rejects env _) eqn:Hrej; cbn;
    destruct snapshot; cbn; flat; eexists; (split; [reflexivity|]); by split.
Qed.

(* ===================================================================== *)
(* browser_save_as_pdf                                                     *)
(* ===================================================================== *)

Lemma pdf_validated (o : gmap string json) (w : option float)
    (f : option string) :
  o !! "width" = JNum <$> w ->
  not_nan w ->
  o !! "fileName" = JStr <$> f ->
  Zod.safeParse Common.pdfSchema (JObj o) = Some (w, (f, tt)).
Proof.
  intros Hw Hn Hf. cbn [Zod.safeParse Common.pdfSchema Zod.parse_shape].
  rewrite (parse_optional_number _ w Hw Hn), (parse_optional_string _ f Hf).
  reflexivity.
Qed.

(** C7: with [width] absent or a number (a double other than NaN),
    [fileName] absent or a string and a tab open, browser_save_as_pdf uses
    the width 1400 when [width] is absent and the name
    "page-<ISO timestamp>" when [fileName] is absent.  Whenever it calls
    [page.pdf], the width argument is "<width>px" and the height argument
    is "<h>px", each number as the engine renders it, where [h] is the
    scroll height measured from the page, and the path is the fixed
    directory joined with the sanitized "<fileName>.pdf".  When the browser
    rejects nothing there is exactly one such call, after the viewport was
    set and the height measured. *)
Theorem pdf_export_arguments (o : gmap string json) (w : option float)
    (f : option string) (t : nat) (env : Env) (s : State) :
  o !! "width" = JNum <$> w ->
  not_nan w ->
  o !! "fileName" = JStr <$> f ->
  current s = Some t ->
  let numericWidth := default 1400%float w in
  let fileName := default ("page-" +:+ toISOString_now env) f in
  let filePath :=
    path_join env Common.saveDir
      (sanitizeForFilePath env (fileName +:+ ".pdf")) in
  let scrollHeight :=
    Math.max (body_scrollHeight env (numericWidth, 800%float))
             (documentElement_scrollHeight env (numericWidth, 800%float)) in
  let opts := {| pdf_path := filePath;
                 pdf_printBackground := true;
                 pdf_width := number_toString env numericWidth +:+ "px";
                 pdf_height := number_toString env scrollHeight +:+ "px" |} in
  let r := handle Common.pdf (JObj o) env s in
  (forall t' opts', PagePdf t' opts' ∈ trace (snd r) ->
                    PagePdf t' opts' ∈ trace s \/ t' = t /\ opts' = opts) /\
  ((forall e, rejects env e = false) ->
   fst r = inr (TextContent ("Saved as " +:+ filePath
                             +:+ " with width set to "
                             +:+ number_toString env numericWidth +:+ "px.")) /\
   trace (snd r)
   = trace s ++ [CurrentTab; SetViewportSize t numericWidth 800;
                 PageEvaluate t; PagePdf t opts]).
Proof.
  intros Hw Hn Hf Hcur. cbn zeta. cbn [handle Common.pdf].
  unfold bind at 1. unfold parse. rewrite (pdf_validated o w f Hw Hn Hf).
  autounfold with handler. cbn. rewrite Hcur. cbn.
  destruct (rejects env (SetViewportSize _ _ _)) eqn:Hset; cbn;
    [|destruct (rejects env (PageEvaluate _)) eqn:Hev; cbn;
      [|destruct (rejects env (PagePdf _ _)) eqn:Hpdf; cbn]];
    flat; (split; [|intros Hrej; rewrite Hrej in *; by try split]);
    intros t' opts' Hin; apply elem_of_app in Hin as [Hin|Hin];
    [by left| |by left| |by left| |by left|]; right;
    repeat (apply elem_of_cons in Hin as [Hin|Hin]; try discriminate Hin);
    try (by apply elem_of_nil in Hin);
    by injection Hin as -> ->.
Qed.

Lemma pdf_export_arguments_witness :
  ({["width" := JNum 800]} : gmap string json) !! "width"
  = JNum <$> Some 800%float /\
  not_nan (Some 800%float) /\
  ({["width" := JNum 800]} : gmap string json) !! "fileName"
  = JStr <$> None /\
  current open_tab = Some 0%nat /\
  (forall e, rejects demo_env e = false) /\
  trace (snd (handle Common.pdf (JObj {["width" := JNum 800]}) demo_env
                open_tab))
  = [CurrentTab;
     SetViewportSize 0 800 800;
     PageEvaluate 0;
     PagePdf 0
             {| pdf_path := "C:/Users/User/mcp_projects/shared/page-2025-04-01T12:00:00.000Z.pdf";
                pdf_printBackground := true;
                pdf_width := "800px";
                pdf_height := "1600px" |}].
Proof.
  repeat (split; [reflexivity|]).
  destruct (pdf_export_arguments {["width" := JNum 800]} (Some 800%float)
              None 0%nat demo_env open_tab) as [_ Hall]; [reflexivity..|].
  pose proof (proj2 (Hall (fun _ => eq_refl))) as Htrace.
  vm_compute in Htrace. exact Htrace.
Defined.

(* A large and a fractional width, as they reach [page.pdf]. *)
Lemma pdf_width_examples :
  let exported w :=
    trace (snd (handle Common.pdf (obj [("width", JNum w)]) demo_env
                  open_tab)) in
  let path :=
    "C:/Users/User/mcp_projects/shared/page-2025-04-01T12:00:00.000Z.pdf" in
  exported 1e21%float
  = [CurrentTab; SetViewportSize 0 1e21 800; PageEvaluate 0;
     PagePdf 0 {| pdf_path := path; pdf_printBackground := true;
                  pdf_width := "1e+21px"; pdf_height := "2e+21px" |}] /\
  exported 612.5%float
  = [CurrentTab; SetViewportSize 0 612.5 800; PageEvaluate 0;
     PagePdf 0 {| pdf_path := path; pdf_printBackground := true;
                  pdf_width := "612.5px"; pdf_height := "1225px" |}].
Proof. vm_compute. by split_and!. Qed.

(** C10: whatever [width] and [fileName] are, browser_save_as_pdf sets the
    viewport to the requested width and to the height 800 right after
    obtaining the tab; nothing else sets the viewport, and the scroll
    height that goes into the PDF is measured afterwards, in that
    viewport. *)
Theorem pdf_viewport_height_800 (o : gmap string json) (w : option float)
    (f : option string) (t : nat) (env : Env) (s : State) :
  o !! "width" = JNum <$> w ->
  not_nan w ->
  o !! "fileName" = JStr <$> f ->
  current s = Some t ->
  let numericWidth := default 1400%float w in
  let r := handle Common.pdf (JObj o) env s in
  exists rest,
    trace (snd r)
    = trace s ++ CurrentTab :: SetViewportSize t numericWidth 800 :: rest /\
    (forall t' w' h', SetViewportSize t' w' h' ∉ rest) /\
    (rejects env (SetViewportSize t numericWidth 800) = false ->
     viewport (snd r) = (numericWidth, 800%float)) /\
    (forall t' opts, PagePdf t' opts ∈ rest ->
       rest = [PageEvaluate t; PagePdf t opts] /\
       pdf_height opts
       = number_toString env
           (Math.max
              (body_scrollHeight env (numericWidth, 800%float))
              (documentElement_scrollHeight env (numericWidth, 800%float)))
         +:+ "px").
Proof.
  intros Hw Hn Hf Hcur. cbn zeta. cbn [handle Common.pdf].
  unfold bind at 1. unfold parse. rewrite (pdf_validated o w f Hw Hn Hf).
  autounfold with handler. cbn. rewrite Hcur. cbn.
  destruct (rejects env (SetViewportSize _ _ _)) eqn:Hset; cbn;
    [|destruct (rejects env (PageEvaluate _)) eqn:Hev; cbn;
      [|destruct (rejects env (PagePdf _ _)) eqn:Hpdf; cbn]];
    flat; eexists; (split; [reflexivity|]);
    (split; [intros t' w' h'; absent|]);
    (split; [done|]);
    intros t' opts Hin;
    repeat (apply elem_of_cons in Hin as [Hin|Hin]; try discriminate Hin);
    try (by apply elem_of_nil in Hin);
    injection Hin as -> ->; by split.
Qed.

Lemma pdf_viewport_height_800_witness :
  (∅ : gmap string json) !! "width" = JNum <$> None /\
  not_nan None /\
  (∅ : gmap string json) !! "fileName" = JStr <$> None /\
  current open_tab = Some 0%nat /\
  exists rest,
    trace (snd (handle Common.pdf (JObj ∅) demo_env open_tab))
    = CurrentTab :: SetViewportSize 0 1400 800 :: rest.
Proof.
  repeat (split; [reflexivity|]).
  destruct (pdf_viewport_height_800 ∅ None None 0%nat demo_env open_tab)
    as (rest & Htrace & _); [reflexivity..|].
  exists rest. exact Htrace.
Defined.

(* ===================================================================== *)
(* browser_choose_file                                                     *)
(* ===================================================================== *)






(* ===================================================================== *)
(* Further properties of the handlers                                      *)
(* ===================================================================== *)

(* --- Validation across the whole file --------------------------------- *)

(** X1: whenever a tool of this file fails with InvalidParams, nothing has
    happened: no call was made on the context, the tab, the page or the
    timer, and the state is the one the handler was given. *)
Theorem invalid_params_no_effect (snapshot : bool) (tool : Tool)
    (params : json) (env : Env) (s : State) :
  tool ∈ Common.tools snapshot ->
  fst (handle tool params env s) = inl InvalidParams ->
  snd (handle tool params env s) = s.
Proof.
  intros Hin. unfold Common.tools in Hin.
  repeat (apply elem_of_cons in Hin as [-> | Hin]);
    try (by apply elem_of_nil in Hin);
    cbn [handle Common.navigate Common.goBack Common.goForward Common.wait
         Common.pressKey Common.pdf Common.close Common.chooseFile
         Common.install];
    try (unfold bind at 1 2; unfold parse;
         destruct (Zod.safeParse _ params) as [vp|]; [|reflexivity]);
    intros H; exfalso; refute_result H;
    try destruct (install_channel env); cbn in H; discriminate H.
Qed.

(** X2: whether a tool fails with InvalidParams depends on the params
    alone: if it does in one world (environment and state), it does in
    every world. *)
Theorem validation_world_independent (snapshot : bool) (tool : Tool)
    (params : json) (env env' : Env) (s s' : State) :
  tool ∈ Common.tools snapshot ->
  fst (handle tool params env s) = inl InvalidParams ->
  fst (handle tool params env' s') = inl InvalidParams.
Proof.
  intros Hin. unfold Common.tools in Hin.
  repeat (apply elem_of_cons in Hin as [-> | Hin]);
    try (by apply elem_of_nil in Hin);
    cbn [handle Common.navigate Common.goBack Common.goForward Common.wait
         Common.pressKey Common.pdf Common.close Common.chooseFile
         Common.install];
    try (unfold bind at 1 2; unfold parse;
         destruct (Zod.safeParse _ params) as [vp|]; [|reflexivity]);
    intros H; exfalso; clear env' s'; refute_result H;
    try destruct (install_channel env); cbn in H; discriminate H.
Qed.

Lemma validation_world_independent_witness :
  Common.pdf ∈ Common.tools true /\
  fst (handle Common.pdf (obj [("width", JStr "800")]) demo_env fresh)
  = inl InvalidParams /\
  fst (handle Common.pdf (obj [("width", JStr "800")]) demo_env open_tab)
  = inl InvalidParams.
Proof.
  assert (Hin : Common.pdf ∈ Common.tools true)
    by (do 5 apply list_elem_of_further; apply list_elem_of_here).
  split; [exact Hin|]. split; [reflexivity|].
  apply (validation_world_independent true Common.pdf
           (obj [("width", JStr "800")]) demo_env demo_env fresh open_tab Hin).
  reflexivity.
Defined.

Lemma invalid_params_no_effect_witness :
  Common.wait ∈ Common.tools false /\
  fst (handle Common.wait (obj [("time", JStr "soon")]) demo_env open_tab)
  = inl InvalidParams /\
  snd (handle Common.wait (obj [("time", JStr "soon")]) demo_env open_tab)
  = open_tab.
Proof.
  assert (Hin : Common.wait ∈ Common.tools false)
    by (do 3 apply list_elem_of_further; apply list_elem_of_here).
  split; [exact Hin|]. split; [reflexivity|].
  apply (invalid_params_no_effect false Common.wait
           (obj [("time", JStr "soon")]) demo_env open_tab Hin).
  reflexivity.
Defined.

(* A key that the JSON schema lists as required is parsed by a type that
   rejects [undefined]. *)
Lemma parse_shape_missing_required {A} (sh : Zod.Shape A)
    (o : gmap string json) (k : string) :
  k ∈ Zod.required (Zod.zodToJsonSchema sh) ->
  o !! k = None ->
  Zod.parse_shape sh o = None.
Proof.
  induction sh as [|A B k' t rest IH]; intros Hk Ho; cbn in Hk.
  - by apply elem_of_nil in Hk.
  - cbn [Zod.parse_shape].
    destruct t; cbn in Hk.
    + apply elem_of_cons in Hk as [->|Hk]; [by rewrite Ho|].
      rewrite (IH Hk Ho). by destruct (Zod.parse_type _ _).
    + apply elem_of_cons in Hk as [->|Hk]; [by rewrite Ho|].
      rewrite (IH Hk Ho). by destruct (Zod.parse_type _ _).
    + rewrite (IH Hk Ho). by destruct (Zod.parse_type _ _).
    + apply elem_of_cons in Hk as [->|Hk]; [by rewrite Ho|].
      rewrite (IH Hk Ho). by destruct (Zod.parse_type _ _).
Qed.

(** X3: for every tool, a params object that lacks a key listed as
    required in the tool's input schema is rejected with InvalidParams
    before anything is called. *)
Theorem missing_required_key_rejected (snapshot : bool) (tool : Tool)
    (k : string) (o : gmap string json) (env : Env) (s : State) :
  tool ∈ Common.tools snapshot ->
  k ∈ Zod.required (inputSchema (schema tool)) ->
  o !! k = None ->
  handle tool (JObj o) env s = (inl InvalidParams, s).
Proof.
  intros Hin Hk Ho. unfold Common.tools in Hin.
  repeat (apply elem_of_cons in Hin as [-> | Hin]);
    try (by apply elem_of_nil in Hin);
    cbn [schema inputSchema Common.navigate Common.goBack Common.goForward
         Common.wait Common.pressKey Common.pdf Common.close
         Common.chooseFile Common.install] in Hk;
    try (by apply elem_of_nil in Hk);
    cbn [handle Common.navigate Common.wait Common.pressKey Common.pdf
         Common.chooseFile];
    unfold bind at 1; unfold parse; cbn [Zod.safeParse];
    by rewrite (parse_shape_missing_required _ o k Hk Ho).
Qed.

Lemma missing_required_key_rejected_witness :
  Common.chooseFile true ∈ Common.tools true /\
  ("paths" ∈ Zod.required (inputSchema (schema (Common.chooseFile true)))) /\
  (∅ : gmap string json) !! "paths" = None /\
  handle (Common.chooseFile true) (JObj ∅) demo_env chooser_pending
  = (inl InvalidParams, chooser_pending).
Proof.
  assert (Hin : Common.chooseFile true ∈ Common.tools true)
    by (do 7 apply list_elem_of_further; apply list_elem_of_here).
  assert (Hk : "paths"
               ∈ Zod.required (inputSchema (schema (Common.chooseFile true))))
    by apply list_elem_of_here.
  split; [exact Hin|]. split; [exact Hk|]. split; [reflexivity|].
  apply (missing_required_key_rejected true (Common.chooseFile true) "paths"
           ∅ demo_env chooser_pending Hin Hk).
  reflexivity.
Defined.

(** X4: a tool that declares at least one parameter rejects params that are
    not an object (null, a boolean, a number, a string, an array) with
    InvalidParams and without calling anything; this holds for
    browser_save_as_pdf too, all of whose parameters are optional. *)
Theorem non_object_params_rejected (snapshot : bool) (tool : Tool)
    (params : json) (env : Env) (s : State) :
  tool ∈ Common.tools snapshot ->
  declared tool <> [] ->
  (forall o, params <> JObj o) ->
  handle tool params env s = (inl InvalidParams, s).
Proof.
  intros Hin Hdecl Hobj. unfold Common.tools in Hin.
  repeat (apply elem_of_cons in Hin as [-> | Hin]);
    try (by apply elem_of_nil in Hin);
    try (by exfalso; apply Hdecl);
    destruct params as [| | | | |o]; try (by exfalso; apply (Hobj o));
    reflexivity.
Qed.

Lemma non_object_params_rejected_witness :
  Common.pdf ∈ Common.tools false /\
  declared Common.pdf <> [] /\
  (forall o, JArr [JNum 800] <> JObj o) /\
  handle Common.pdf (JArr [JNum 800]) demo_env open_tab
  = (inl InvalidParams, open_tab).
Proof.
  assert (Hin : Common.pdf ∈ Common.tools false)
    by (do 5 apply list_elem_of_further; apply list_elem_of_here).
  assert (Hdecl : declared Common.pdf <> []) by discriminate.
  assert (Hobj : forall o, JArr [JNum 800] <> JObj o) by discriminate.
  split; [exact Hin|]. split; [exact Hdecl|]. split; [exact Hobj|].
  exact (non_object_params_rejected false Common.pdf (JArr [JNum 800])
           demo_env open_tab Hin Hdecl Hobj).
Defined.

(** X5: a tool that declares no parameter (browser_go_back,
    browser_go_forward, browser_close, browser_install) never looks at its
    params: it behaves the same on any two values, object or not, and so
    never fails with InvalidParams. *)
Theorem paramless_tools_ignore_params (snapshot : bool) (tool : Tool)
    (params params' : json) (env : Env) (s : State) :
  tool ∈ Common.tools snapshot ->
  declared tool = [] ->
  handle tool params env s = handle tool params' env s /\
  fst (handle tool params env s) <> inl InvalidParams.
Proof.
  intros Hin Hdecl. unfold Common.tools in Hin.
  repeat (apply elem_of_cons in Hin as [-> | Hin]);
    try (by apply elem_of_nil in Hin);
    try discriminate Hdecl;
    (split; [reflexivity|]);
    cbn [handle Common.goBack Common.goForward Common.close Common.install];
    intros H; refute_result H;
    try destruct (install_channel env); cbn in H; discriminate H.
Qed.

Lemma paramless_tools_ignore_params_witness :
  Common.goBack true ∈ Common.tools true /\
  declared (Common.goBack true) = [] /\
  handle (Common.goBack true) JNull demo_env open_tab
  = handle (Common.goBack true) (obj [("steps", JNum 2)]) demo_env open_tab.
Proof.
  assert (Hin : Common.goBack true ∈ Common.tools true)
    by (apply list_elem_of_further; apply list_elem_of_here).
  split; [exact Hin|]. split; [reflexivity|].
  apply (paramless_tools_ignore_params true (Common.goBack true) JNull
           (obj [("steps", JNum 2)]) demo_env open_tab Hin).
  reflexivity.
Defined.

(* --- browser_press_key -------------------------------------------------- *)

(** X6: browser_press_key fails with InvalidParams, with nothing called,
    exactly when params is not an object with a string under [key]; every
    string is accepted as a key name, the empty string included. *)
Theorem pressKey_validation (cs : bool) (params : json) (env : Env)
    (s : State) :
  let r := handle (Common.pressKey cs) params env s in
  match string_member "key" params with
  | Some k => fst r <> inl InvalidParams
  | None => r = (inl InvalidParams, s)
  end.
Proof.
  intros r. subst r. cbn [handle Common.pressKey]. unfold string_member.
  destruct params as [| | | | |o]; try reflexivity.
  unfold bind at 1. unfold parse.
  cbn [Zod.safeParse Common.pressKeySchema Zod.parse_shape Zod.parse_type].
  destruct (o !! "key") as [[| | |k| |]|]; try reflexivity.
  exec; done.
Qed.

(** X7: for every string [key], browser_press_key obtains the tab with
    [currentTab] and fails with NoActiveTab, pressing nothing, when there
    is none; with a tab it enters [runAndWait] on it with the status
    "Pressed key <key>", presses exactly that key once on the tab's
    keyboard and, unless the browser rejects the key, waits for the page to
    settle and returns that status. *)
Theorem pressKey_presses_key (cs : bool) (o : gmap string json) (k : string)
    (env : Env) (s : State) :
  o !! "key" = Some (JStr k) ->
  let r := handle (Common.pressKey cs) (JObj o) env s in
  let opts := {| status := "Pressed key " +:+ k;
                 captureSnapshot := cs;
                 noClearFileChooser := None |} in
  match current s with
  | None => r = (inl NoActiveTab, log CurrentTab s)
  | Some tab =>
      exists rest,
        trace (snd r)
        = trace s ++ CurrentTab :: RunAndWait tab opts :: ClearFileChooser
                  :: KeyboardPress tab k :: rest /\
        if rejects env (KeyboardPress tab k)
        then fst r = inl ActionFailed /\ rest = []
        else fst r = inr (Outcome {|
                        outcome_status := "Pressed key " +:+ k;
                        outcome_snapshot :=
                          if cs then page_snapshot env else None |}) /\
             rest = WaitForSettle :: (if cs then [CaptureSnapshot] else [])
  end.
Proof.
  intros Hk. cbn zeta. cbn [handle Common.pressKey].
  unfold bind at 1. unfold parse.
  cbn [Zod.safeParse Common.pressKeySchema Zod.parse_shape Zod.parse_type].
  rewrite Hk. autounfold with handler. cbn.
  destruct (current s) as [tab|] eqn:Hcur; cbn; [|reflexivity].
  destruct (rejects env _) eqn:Hrej; cbn;
    destruct cs; cbn; flat; eexists; (split; [reflexivity|]); by split.
Qed.

Lemma pressKey_presses_key_witness :
  ({["key" := JStr "ArrowLeft"]} : gmap string json) !! "key"
  = Some (JStr "ArrowLeft") /\
  exists rest,
    trace (snd (handle (Common.pressKey false)
                  (JObj {["key" := JStr "ArrowLeft"]}) demo_env open_tab))
    = CurrentTab
        :: RunAndWait 0 {| status := "Pressed key ArrowLeft";
                           captureSnapshot := false;
                           noClearFileChooser := None |}
        :: ClearFileChooser :: KeyboardPress 0 "ArrowLeft" :: rest.
Proof.
  split; [reflexivity|].
  destruct (pressKey_presses_key false {["key" := JStr "ArrowLeft"]}
              "ArrowLeft" demo_env open_tab) as (rest & Htrace & _);
    [reflexivity|].
  exists rest. exact Htrace.
Defined.

(* --- browser_choose_file ------------------------------------------------ *)

(* What [z.array(z.string())] accepts is an array of strings. *)
Lemma parse_array_of_strings_inv (l : list json) (ps : list string) :
  Zod.parse_type (Zod.ZArray Zod.ZString) (Some (JArr l)) = Some ps ->
  l = JStr <$> ps.
Proof.
  cbn. revert ps. induction l as [|x l IH]; intros ps H; cbn in H.
  - by injection H as <-.
  - destruct x; try discriminate H.
    destruct (Zod.all_some _) as [xs|] eqn:Hxs; [|discriminate H].
    injection H as <-. cbn. f_equal. by apply IH.
Qed.

(** X8: browser_choose_file accepts [paths] only as an array whose elements
    are all strings.  Anything else under [paths] (a single path given as a
    bare string, an array with a non-string element, nothing) is rejected
    with InvalidParams before the tab is asked for and before anything is
    submitted. *)
Theorem chooseFile_validation (cs : bool) (o : gmap string json) (env : Env)
    (s : State) :
  (forall ps, o !! "paths" <> Some (JArr (JStr <$> ps))) ->
  handle (Common.chooseFile cs) (JObj o) env s = (inl InvalidParams, s).
Proof.
  intros Hno. cbn [handle Common.chooseFile].
  unfold bind at 1. unfold parse.
  cbn [Zod.safeParse Common.chooseFileSchema Zod.parse_shape].
  destruct (Zod.parse_type _ (o !! "paths")) as [ps|] eqn:Hps; [|reflexivity].
  exfalso. apply (Hno ps).
  destruct (o !! "paths") as [[| | | |l|]|]; try discriminate Hps.
  by rewrite (parse_array_of_strings_inv l ps Hps).
Qed.

Lemma chooseFile_validation_witness :
  (forall ps, ({["paths" := JStr "/tmp/a.txt"]} : gmap string json) !! "paths"
              <> Some (JArr (JStr <$> ps))) /\
  handle (Common.chooseFile false) (JObj {["paths" := JStr "/tmp/a.txt"]})
    demo_env chooser_pending
  = (inl InvalidParams, chooser_pending).
Proof.
  assert (Hno : forall ps,
             ({["paths" := JStr "/tmp/a.txt"]} : gmap string json) !! "paths"
             <> Some (JArr (JStr <$> ps)))
    by (intros ps H; vm_compute in H; discriminate H).
  split; [exact Hno|].
  exact (chooseFile_validation false {["paths" := JStr "/tmp/a.txt"]}
           demo_env chooser_pending Hno).
Defined.

(* --- browser_save_as_pdf ------------------------------------------------ *)

(** X9: browser_save_as_pdf fails with InvalidParams exactly when [width]
    is present and not a number (NaN is not one) or [fileName] is present
    and not a string; in particular the empty object is valid, and null is
    not accepted for an absent member. *)
Theorem pdf_validation (o : gmap string json) (env : Env) (s : State) :
  fst (handle Common.pdf (JObj o) env s) = inl InvalidParams <->
  ~ (exists (w : option float) (f : option string),
       o !! "width" = JNum <$> w /\ not_nan w /\
       o !! "fileName" = JStr <$> f).
Proof.
  split.
  - intros H (w & f & Hw & Hn & Hf). revert H. cbn [handle Common.pdf].
    unfold bind at 1. unfold parse. rewrite (pdf_validated o w f Hw Hn Hf).
    exec; done.
  - intros Hno. cbn [handle Common.pdf].
    unfold bind at 1. unfold parse.
    cbn [Zod.safeParse Common.pdfSchema Zod.parse_shape Zod.parse_type].
    destruct (o !! "width") as [[| |w| | |]|] eqn:Hw; try reflexivity;
      [destruct (is_nan w) eqn:Hn; [reflexivity|]|];
      destruct (o !! "fileName") as [[| | |f| |]|] eqn:Hf; try reflexivity;
      exfalso; apply Hno.
    + by exists (Some w), (Some f).
    + by exists (Some w), None.
    + by exists None, (Some f).
    + by exists None, None.
Qed.

(** X10: the steps of browser_save_as_pdf run in order and stop at the
    first failure.  Without a tab it fails with NoActiveTab and touches no
    page.  With a tab it fails with ActionFailed exactly when the browser
    rejects the viewport change, the height measurement or the export;
    if the viewport change is rejected nothing is measured or written and
    the recorded viewport is unchanged; if the measurement is rejected
    nothing is written. *)
Theorem pdf_stops_at_first_failure (o : gmap string json)
    (w : option float) (f : option string) (env : Env) (s : State) :
  o !! "width" = JNum <$> w ->
  not_nan w ->
  o !! "fileName" = JStr <$> f ->
  let numericWidth := default 1400%float w in
  let fileName := default ("page-" +:+ toISOString_now env) f in
  let filePath :=
    path_join env Common.saveDir
      (sanitizeForFilePath env (fileName +:+ ".pdf")) in
  let scrollHeight :=
    Math.max (body_scrollHeight env (numericWidth, 800%float))
             (documentElement_scrollHeight env (numericWidth, 800%float)) in
  let opts := {| pdf_path := filePath;
                 pdf_printBackground := true;
                 pdf_width := number_toString env numericWidth +:+ "px";
                 pdf_height := number_toString env scrollHeight +:+ "px" |} in
  let r := handle Common.pdf (JObj o) env s in
  match current s with
  | None => r = (inl NoActiveTab, log CurrentTab s)
  | Some t =>
      let resize := SetViewportSize t numericWidth 800 in
      (fst r = inl ActionFailed <->
       rejects env resize = true \/
       rejects env (PageEvaluate t) = true \/
       rejects env (PagePdf t opts) = true) /\
      (rejects env resize = true ->
       trace (snd r) = trace s ++ [CurrentTab; resize] /\
       viewport (snd r) = viewport s) /\
      (rejects env resize = false ->
       rejects env (PageEvaluate t) = true ->
       trace (snd r) = trace s ++ [CurrentTab; resize; PageEvaluate t])
  end.
Proof.
  intros Hw Hn Hf. cbn zeta. cbn [handle Common.pdf].
  unfold bind at 1. unfold parse. rewrite (pdf_validated o w f Hw Hn Hf).
  autounfold with handler. cbn.
  destruct (current s) as [t|] eqn:Hcur; cbn; [|reflexivity].
  destruct (rejects env (SetViewportSize _ _ _)) eqn:Hset; cbn;
    [|destruct (rejects env (PageEvaluate _)) eqn:Hev; cbn;
      [|destruct (rejects env (PagePdf _ _)) eqn:Hpdf; cbn]];
    flat; repeat split; try done; try (by auto);
    intros H; try discriminate H;
    destruct H as [H|[H|H]]; discriminate H.
Qed.

Lemma pdf_stops_at_first_failure_witness :
  (∅ : gmap string json) !! "width" = JNum <$> None /\
  not_nan None /\
  (∅ : gmap string json) !! "fileName" = JStr <$> None /\
  handle Common.pdf (JObj ∅) demo_env fresh
  = (inl NoActiveTab, log CurrentTab fresh).
Proof.
  repeat (split; [reflexivity|]).
  apply (pdf_stops_at_first_failure ∅ None None demo_env fresh);
    reflexivity.
Defined.

(* --- browser_wait ------------------------------------------------------- *)


(* --- browser_close and browser_install ---------------------------------- *)

(** X12: browser_close ignores its params and never asks for a tab: it
    makes the single call [context.close()] and then answers "Page closed"
    (the context's [close] is modelled as never failing); closing again
    right away gives the same answer. *)
Theorem close_always_answers (params params' : json) (env env' : Env)
    (s : State) :
  let r := handle Common.close params env s in
  fst r = inr (TextContent "Page closed") /\
  trace (snd r) = trace s ++ [ContextClose] /\
  fst (handle Common.close params' env' (snd r))
  = inr (TextContent "Page closed").
Proof. cbn zeta. cbn [handle Common.close]. exec. by repeat split. Qed.

(** X13: browser_install makes the single call [context.install()] and
    nothing else: it leaves the current tab, the file chooser and the
    viewport alone.  Its answer names the channel that call returned, and
    when that call fails the failure is the result and no text is
    produced. *)
Theorem install_reports_channel (params : json) (env : Env) (s : State) :
  let r := handle Common.install params env s in
  snd r = log ContextInstall s /\
  match install_channel env with
  | Some channel =>
      fst r = inr (TextContent ("Browser " +:+ channel +:+ " installed"))
  | None => fst r = inl InstallFailed
  end.
Proof.
  cbn zeta. cbn [handle Common.install]. exec.
  by destruct (install_channel env).
Qed.

(* --- The catalogue ------------------------------------------------------ *)

(** X14: the nine tools of this file have pairwise distinct names, and
    neither the names nor the declared parameters depend on the snapshot
    flag given to the factories. *)
Theorem tool_names_distinct (snapshot : bool) :
  NoDup ((fun t => name (schema t)) <$> Common.tools snapshot) /\
  (fun t => (name (schema t), declared t)) <$> Common.tools snapshot
  = (fun t => (name (schema t), declared t)) <$> Common.tools (negb snapshot).
Proof.
  split; [|by destruct snapshot].
  destruct snapshot; apply (bool_decide_unpack _); vm_compute; exact I.
Qed.

(** X15: which tools reach for a tab.  In any invocation of a tool of this
    file, a call of [ensureTab] is made only by browser_navigate, a call of
    [currentTab] only by browser_go_back, browser_go_forward,
    browser_press_key, browser_save_as_pdf and browser_choose_file, and no
    tool calls both; browser_wait, browser_close and browser_install call
    neither. *)
Theorem tab_acquisition_by_tool (snapshot : bool) (tool : Tool)
    (params : json) (env : Env) (s : State) (ext : list Event) :
  tool ∈ Common.tools snapshot ->
  trace (snd (handle tool params env s)) = trace s ++ ext ->
  (EnsureTab ∈ ext -> name (schema tool) = "browser_navigate") /\
  (CurrentTab ∈ ext ->
   name (schema tool)
   ∈ ["browser_go_back"; "browser_go_forward"; "browser_press_key";
      "browser_save_as_pdf"; "browser_choose_file"]) /\
  ~ (EnsureTab ∈ ext /\ CurrentTab ∈ ext).
Proof.
  intros Hin. unfold Common.tools in Hin.
  repeat (apply elem_of_cons in Hin as [-> | Hin]);
    try (by apply elem_of_nil in Hin);
    cbn [handle schema name Common.navigate Common.goBack Common.goForward
         Common.wait Common.pressKey Common.pdf Common.close
         Common.chooseFile Common.install];
    try (unfold bind at 1; unfold parse;
         destruct (Zod.safeParse _ params) as [vp|]);
    intros H; added H;
    (split; [by_membership | split; [by_membership |]]);
    intros [H1 H2]; revert H1 H2; by_membership; by_membership.
Qed.

Lemma tab_acquisition_by_tool_witness :
  Common.pdf ∈ Common.tools false /\
  trace (snd (handle Common.pdf (JObj ∅) demo_env fresh))
  = trace fresh ++ [CurrentTab] /\
  (CurrentTab ∈ [CurrentTab] ->
   name (schema Common.pdf)
   ∈ ["browser_go_back"; "browser_go_forward"; "browser_press_key";
      "browser_save_as_pdf"; "browser_choose_file"]).
Proof.
  assert (Hin : Common.pdf ∈ Common.tools false)
    by (do 5 apply list_elem_of_further; apply list_elem_of_here).
  split; [exact Hin|]. split; [reflexivity|].
  apply (tab_acquisition_by_tool false Common.pdf (JObj ∅) demo_env fresh
           [CurrentTab] Hin).
  reflexivity.
Defined.

(** X16: which tools enter the runner, and how.  In any invocation of a
    tool of this file, [run] (no waiting) is entered only by
    browser_navigate; [runAndWait] is entered, and the page is waited for,
    only by browser_go_back, browser_go_forward, browser_press_key and
    browser_choose_file; and a snapshot is captured only by tools built
    with the snapshot flag set.  browser_wait, browser_save_as_pdf,
    browser_close and browser_install never enter the runner. *)
Theorem runner_entry_by_tool (snapshot : bool) (tool : Tool)
    (params : json) (env : Env) (s : State) (ext : list Event) :
  tool ∈ Common.tools snapshot ->
  trace (snd (handle tool params env s)) = trace s ++ ext ->
  (forall t o, Run t o ∈ ext -> name (schema tool) = "browser_navigate") /\
  (forall t o, RunAndWait t o ∈ ext ->
     name (schema tool)
     ∈ ["browser_go_back"; "browser_go_forward"; "browser_press_key";
        "browser_choose_file"]) /\
  (WaitForSettle ∈ ext ->
     name (schema tool)
     ∈ ["browser_go_back"; "browser_go_forward"; "browser_press_key";
        "browser_choose_file"]) /\
  (CaptureSnapshot ∈ ext -> snapshot = true).
Proof.
  intros Hin. unfold Common.tools in Hin.
  repeat (apply elem_of_cons in Hin as [-> | Hin]);
    try (by apply elem_of_nil in Hin);
    cbn [handle schema name Common.navigate Common.goBack Common.goForward
         Common.wait Common.pressKey Common.pdf Common.close
         Common.chooseFile Common.install];
    try (unfold bind at 1; unfold parse;
         destruct (Zod.safeParse _ params) as [vp|]);
    intros H; added H;
    (split; [intros t o; by_membership |
     split; [intros t o; by_membership |
     split; by_membership]]).
Qed.

Lemma runner_entry_by_tool_witness :
  Common.navigate false ∈ Common.tools false /\
  trace (snd (handle (Common.navigate false)
                (JObj {["url" := JStr "https://example.com"]}) demo_env
                open_tab))
  = trace open_tab
    ++ [EnsureTab;
        Run 0 {| status := "Navigated to https://example.com";
                 captureSnapshot := false;
                 noClearFileChooser := None |};
        ClearFileChooser;
        TabNavigate 0 "https://example.com"] /\
  (WaitForSettle
   ∈ [EnsureTab;
      Run 0 {| status := "Navigated to https://example.com";
               captureSnapshot := false;
               noClearFileChooser := None |};
      ClearFileChooser;
      TabNavigate 0 "https://example.com"] ->
   name (schema (Common.navigate false))
   ∈ ["browser_go_back"; "browser_go_forward"; "browser_press_key";
      "browser_choose_file"]).
Proof.
  assert (Hin : Common.navigate false ∈ Common.tools false)
    by apply list_elem_of_here.
  split; [exact Hin|]. split; [reflexivity|].
  apply (runner_entry_by_tool false (Common.navigate false)
           (JObj {["url" := JStr "https://example.com"]}) demo_env open_tab
           _ Hin).
  reflexivity.
Defined.

(** X17: the failures each tool can produce.  InvalidParams comes only from
    a tool that declares parameters; NoActiveTab only from the five tools
    that use [currentTab], so never from browser_navigate; a rejection by
    the browser only from browser_navigate and those five; InstallFailed
    only from browser_install.  Hence browser_wait can fail only on its
    params. *)
Theorem failures_by_tool (snapshot : bool) (tool : Tool) (params : json)
    (env : Env) (s : State) (e : Error) :
  tool ∈ Common.tools snapshot ->
  fst (handle tool params env s) = inl e ->
  match e with
  | InvalidParams => declared tool <> []
  | NoActiveTab =>
      name (schema tool)
      ∈ ["browser_go_back"; "browser_go_forward"; "browser_press_key";
         "browser_save_as_pdf"; "browser_choose_file"]
  | ActionFailed =>
      name (schema tool)
      ∈ ["browser_navigate"; "browser_go_back"; "browser_go_forward";
         "browser_press_key"; "browser_save_as_pdf"; "browser_choose_file"]
  | InstallFailed => name (schema tool) = "browser_install"
  end.
Proof.
  intros Hin. unfold Common.tools in Hin.
  repeat (apply elem_of_cons in Hin as [-> | Hin]);
    try (by apply elem_of_nil in Hin);
    cbn [handle schema name Common.navigate Common.goBack Common.goForward
         Common.wait Common.pressKey Common.pdf Common.close
         Common.chooseFile Common.install];
    try (unfold bind at 1; unfold parse;
         destruct (Zod.safeParse _ params) as [vp|]);
    intros H; revert H; exec; try (destruct (install_channel _); cbn);
    intros H; try discriminate H; injection H as <-;
    try discriminate; try reflexivity;
    apply (bool_decide_unpack _); vm_compute; exact I.
Qed.

Lemma failures_by_tool_witness :
  Common.install ∈ Common.tools true /\
  fst (handle Common.install JNull
         {| number_toString := Engine.Number_toString;
            sanitizeForFilePath := fun x => x;
            path_join := fun d f => d +:+ "/" +:+ f;
            toISOString_now := "2025-04-01T12:00:00.000Z";
            body_scrollHeight := fun _ => 0%float;
            documentElement_scrollHeight := fun _ => 0%float;
            rejects := fun _ => false;
            page_snapshot := None;
            install_channel := None |} fresh)
  = inl InstallFailed /\
  name (schema Common.install) = "browser_install".
Proof.
  assert (Hin : Common.install ∈ Common.tools true)
    by (do 8 apply list_elem_of_further; apply list_elem_of_here).
  split; [exact Hin|]. split; [reflexivity|].
  apply (failures_by_tool true Common.install JNull
           {| number_toString := Engine.Number_toString;
            sanitizeForFilePath := fun x => x;
              path_join := fun d f => d +:+ "/" +:+ f;
              toISOString_now := "2025-04-01T12:00:00.000Z";
              body_scrollHeight := fun _ => 0%float;
              documentElement_scrollHeight := fun _ => 0%float;
              rejects := fun _ => false;
              page_snapshot := None;
              install_channel := None |} fresh InstallFailed Hin).
  reflexivity.
Defined.

(* Two objects that agree on the keys of a shape are parsed alike. *)
Lemma parse_shape_agree {A} (sh : Zod.Shape A) (o o' : gmap string json) :
  (forall k, k ∈ Zod.shape_keys sh -> o !! k = o' !! k) ->
  Zod.parse_shape sh o = Zod.parse_shape sh o'.
Proof.
  induction sh as [|A B k t rest IH]; intros Hagree; [reflexivity|].
  cbn. rewrite (Hagree k) by apply list_elem_of_here.
  rewrite IH; [reflexivity|].
  intros k' Hk'. apply Hagree. by apply list_elem_of_further.
Qed.

(** X18: a handler depends on its params only through the parameters the
    tool declares: on two params objects that agree on every declared key
    (whatever else they contain) it returns the same result, makes the
    same calls and ends in the same state. *)
Theorem handlers_read_declared_keys_only (snapshot : bool) (tool : Tool)
    (o o' : gmap string json) (env : Env) (s : State) :
  tool ∈ Common.tools snapshot ->
  (forall k, k ∈ declared tool -> o !! k = o' !! k) ->
  handle tool (JObj o) env s = handle tool (JObj o') env s.
Proof.
  intros Hin Hagree. unfold Common.tools in Hin.
  repeat (apply elem_of_cons in Hin as [-> | Hin]);
    try (by apply elem_of_nil in Hin);
    try reflexivity;
    unfold declared in Hagree;
    cbn [schema inputSchema Common.navigate Common.wait Common.pressKey
         Common.pdf Common.chooseFile] in Hagree;
    rewrite zodToJsonSchema_keys in Hagree;
    cbn [handle Common.navigate Common.wait Common.pressKey Common.pdf
         Common.chooseFile];
    unfold bind at 1; unfold parse; cbn [Zod.safeParse];
    rewrite (parse_shape_agree _ o o' Hagree); reflexivity.
Qed.

Lemma handlers_read_declared_keys_only_witness :
  Common.wait ∈ Common.tools false /\
  (forall k, k ∈ declared Common.wait ->
     ({["time" := JNum 3; "unit" := JStr "ms"]} : gmap string json) !! k
     = ({["time" := JNum 3; "verbose" := JBool true]} : gmap string json)
         !! k) /\
  handle Common.wait (JObj {["time" := JNum 3; "unit" := JStr "ms"]})
    demo_env fresh
  = handle Common.wait (JObj {["time" := JNum 3; "verbose" := JBool true]})
      demo_env fresh.
Proof.
  assert (Hin : Common.wait ∈ Common.tools false)
    by (do 3 apply list_elem_of_further; apply list_elem_of_here).
  assert (Hagree : forall k, k ∈ declared Common.wait ->
     ({["time" := JNum 3; "unit" := JStr "ms"]} : gmap string json) !! k
     = ({["time" := JNum 3; "verbose" := JBool true]} : gmap string json)
         !! k).
  { intros k Hk. apply list_elem_of_singleton in Hk. subst k. reflexivity. }
  split; [exact Hin|]. split; [exact Hagree|].
  exact (handlers_read_declared_keys_only false Common.wait _ _ demo_env
           fresh Hin Hagree).
Defined.
